(** * Path.ts: absolute, normalized filesystem paths

    A shallow embedding of [src/types/Path.ts] and of the Deno primitives
    it calls, followed by the properties of the path algebra
    ([join], [parent], [relative]) and of the conflict policies of the
    mutating operations ([write], [mv], [rm], [readlink]). *)

From Stdlib Require Import String Ascii List Bool ZArith.
From stdpp Require Import gmap strings.
Import ListNotations.
Local Open Scope string_scope.

(** ** JavaScript string and array primitives used by Path.ts *)

Module Js.

Definition slash : ascii := "/"%char.

Definition is_slash (c : ascii) : bool := Ascii.eqb c slash.

(** [s[0] == '/'] *)
Definition starts_with_slash (s : string) : bool :=
  match s with
  | String c _ => is_slash c
  | EmptyString => false
  end.

(** [s.charCodeAt(s.length - 1) === CHAR_FORWARD_SLASH] *)
Fixpoint ends_with_slash (s : string) : bool :=
  match s with
  | EmptyString => false
  | String c EmptyString => is_slash c
  | String _ s' => ends_with_slash s'
  end.

(** [s.split("/")]: never empty, [("").split("/")] is [[""]]. *)
Fixpoint split (s : string) : list string :=
  match s with
  | EmptyString => [EmptyString]
  | String c s' =>
      if is_slash c then EmptyString :: split s'
      else match split s' with
           | seg :: segs => String c seg :: segs
           | [] => [String c EmptyString]
           end
  end.

(** [a.join("/")] *)
Definition join (a : list string) : string := String.concat "/" a.

(** [s.startsWith(t)] *)
Definition startsWith (s t : string) : bool := String.prefix t s.

(** [a.slice(n)] *)
Definition slice {A} (a : list A) (n : nat) : list A := skipn n a.

(** truthiness of a string: [""] is falsy *)
Definition truthy (s : string) : bool :=
  match s with EmptyString => false | _ => true end.

(** The line feed, ["\n"]. *)
Definition newline : ascii := ascii_of_nat 10.

(** [s.split(sep)] for a separator of one character. *)
Fixpoint split_on (sep : ascii) (s : string) : list string :=
  match s with
  | EmptyString => [EmptyString]
  | String c s' =>
      if Ascii.eqb c sep then EmptyString :: split_on sep s'
      else match split_on sep s' with
           | piece :: pieces => String c piece :: pieces
           | [] => [String c EmptyString]
           end
  end.

(** What follows [pre] in [s], when [s] starts with [pre]. *)
Fixpoint strip_prefix (pre s : string) : option string :=
  match pre, s with
  | EmptyString, _ => Some s
  | String a pre', String b s' =>
      if Ascii.eqb a b then strip_prefix pre' s' else None
  | String _ _, EmptyString => None
  end.

(** [\w] of a regular expression: a letter, a digit or an underscore. *)
Definition is_word (c : ascii) : bool :=
  let n := nat_of_ascii c in
  (((65 <=? n) && (n <=? 90)) || ((97 <=? n) && (n <=? 122))
   || ((48 <=? n) && (n <=? 57)) || (n =? 95))%nat.

(** [\s] of a regular expression, among the characters below 256: tab,
    line feed, vertical tab, form feed, carriage return, space and the
    no-break space. *)
Definition is_space (c : ascii) : bool :=
  let n := nat_of_ascii c in
  (((9 <=? n) && (n <=? 13)) || (n =? 32) || (n =? 160))%nat.

End Js.

(** ** The POSIX flavour of Deno's [std/path] ([sys] in Path.ts)

    Path.ts imports [normalize], [dirname] and [basename] from
    [deno/path/mod.ts]; on linux and darwin these are the functions of
    [std/path/posix.ts], modelled here. *)

Module Posix.

(** [normalizeString(path, allowAboveRoot, "/", isPosixPathSeparator)],
    on the segments of the path: empty and ["."] segments are skipped,
    [".."] removes the last kept segment; above the top it is dropped
    for an absolute path and kept for a relative one.  [res] holds the
    kept segments, last one first. *)
Fixpoint normalizeString (allowAboveRoot : bool) (res segs : list string)
  : list string :=
  match segs with
  | [] => rev res
  | seg :: rest =>
      if (seg =? "") || (seg =? ".") then
        normalizeString allowAboveRoot res rest
      else if seg =? ".." then
        match res with
        | top :: res' =>
            if top =? ".." then
              normalizeString allowAboveRoot
                (if allowAboveRoot then ".." :: res else res) rest
            else normalizeString allowAboveRoot res' rest
        | [] =>
            normalizeString allowAboveRoot
              (if allowAboveRoot then [".."] else []) rest
        end
      else normalizeString allowAboveRoot (seg :: res) rest
  end.

(** [normalize(path)]: a trailing separator of the input is kept. *)
Definition normalize (path : string) : string :=
  match path with
  | EmptyString => "."
  | _ =>
      let isAbsolute := Js.starts_with_slash path in
      let trailingSeparator := Js.ends_with_slash path in
      let path1 :=
        Js.join (normalizeString (negb isAbsolute) [] (Js.split path)) in
      let path2 :=
        if negb (Js.truthy path1) && negb isAbsolute then "." else path1 in
      let path3 :=
        if Js.truthy path2 && trailingSeparator then path2 +:+ "/"
        else path2 in
      if isAbsolute then "/" +:+ path3 else path3
  end.

(** The characters of a string, last one first. *)
Fixpoint rev_chars (s : string) (acc : list ascii) : list ascii :=
  match s with
  | EmptyString => acc
  | String c s' => rev_chars s' (c :: acc)
  end.

Fixpoint of_rev_chars (l : list ascii) (acc : string) : string :=
  match l with
  | [] => acc
  | c :: l' => of_rev_chars l' (String c acc)
  end.

Fixpoint drop_slashes (l : list ascii) : list ascii :=
  match l with
  | c :: l' => if Js.is_slash c then drop_slashes l' else l
  | [] => []
  end.

Fixpoint drop_non_slashes (l : list ascii) : list ascii :=
  match l with
  | c :: l' => if Js.is_slash c then l else drop_non_slashes l'
  | [] => []
  end.

Fixpoint take_non_slashes (l : list ascii) : list ascii :=
  match l with
  | c :: l' => if Js.is_slash c then [] else c :: take_non_slashes l'
  | [] => []
  end.

(** [dirname(path)]: the scan runs from the last character down to
    index 1, skips trailing separators, then the last segment, and
    cuts the path before the separator it stops at. *)
Definition dirname (path : string) : string :=
  match path with
  | EmptyString => "."
  | String c0 rest =>
      let hasRoot := Js.is_slash c0 in
      match drop_non_slashes (drop_slashes (rev_chars rest [])) with
      | [] => if hasRoot then "/" else "."
      | _ :: before =>
          match before with
          | [] => if hasRoot then "//" else String c0 EmptyString
          | _ => String c0 (of_rev_chars before EmptyString)
          end
      end
  end.

(** [basename(path)] (no [ext] argument): trailing separators are
    skipped and the last segment is returned. *)
Definition basename (path : string) : string :=
  of_rev_chars (take_non_slashes (drop_slashes (rev_chars path []))) "".

(** The state of the scan of [extname]. *)
Record ext_scan : Type := {
  startDot : Z;
  startPart : Z;
  end_ : Z;
  matchedSlash : bool;
  preDotState : Z
}.

(** The loop of [extname]: [codes] holds the characters from index [i]
    down to index 0. *)
Fixpoint extname_loop (codes : list ascii) (i : Z) (st : ext_scan)
  : ext_scan :=
  match codes with
  | [] => st
  | code :: codes' =>
      if Js.is_slash code then
        if negb (matchedSlash st) then
          {| startDot := startDot st; startPart := i + 1; end_ := end_ st;
             matchedSlash := matchedSlash st; preDotState := preDotState st |}
        else extname_loop codes' (i - 1) st
      else
        let st1 :=
          if (end_ st =? -1)%Z then
            {| startDot := startDot st; startPart := startPart st;
               end_ := i + 1; matchedSlash := false;
               preDotState := preDotState st |}
          else st in
        let st2 :=
          if Ascii.eqb code "."%char then
            if (startDot st1 =? -1)%Z then
              {| startDot := i; startPart := startPart st1; end_ := end_ st1;
                 matchedSlash := matchedSlash st1;
                 preDotState := preDotState st1 |}
            else if negb (preDotState st1 =? 1)%Z then
              {| startDot := startDot st1; startPart := startPart st1;
                 end_ := end_ st1; matchedSlash := matchedSlash st1;
                 preDotState := 1 |}
            else st1
          else if negb (startDot st1 =? -1)%Z then
            {| startDot := startDot st1; startPart := startPart st1;
               end_ := end_ st1; matchedSlash := matchedSlash st1;
               preDotState := -1 |}
          else st1 in
        extname_loop codes' (i - 1) st2
  end%Z.

(** [extname(path)] *)
Definition extname (path : string) : string :=
  let st :=
    extname_loop (rev_chars path []) (Z.of_nat (String.length path) - 1)
      {| startDot := -1; startPart := 0; end_ := -1;
         matchedSlash := true; preDotState := 0 |} in
  if ((startDot st =? -1) || (end_ st =? -1) || (preDotState st =? 0)
      || ((preDotState st =? 1) && (startDot st =? end_ st - 1)
          && (startDot st =? startPart st + 1)))%Z
  then ""
  else String.substring (Z.to_nat (startDot st))
         (Z.to_nat (end_ st - startDot st)) path.

End Posix.

(** ** Exceptions and results *)

(** What a call can throw: Path.ts throws [Error] objects and plain
    strings; the Deno primitives throw [Deno.errors.NotFound], a
    [TypeError] carrying an errno code, or some other system error. *)
Inductive exn : Type :=
| Error (message : string)
| Thrown (value : string)
| NotFound
| TypeError (code : string)
| OsError (code : string).

Inductive result (A : Type) : Type :=
| Ok (value : A)
| Throw (err : exn).
Arguments Ok {A} value.
Arguments Throw {A} err.

Definition result_bind {A B} (r : result A) (k : A -> result B) : result B :=
  match r with
  | Ok a => k a
  | Throw e => Throw e
  end.

(** The error kinds of the specification, as far as the code raises
    them: [relative] throws [Error("unimpl")] where the specification
    says NotASubpathError; [write] throws the string
    [file-exists:<path>] and [moveSync] throws
    [Error("dest already exists.")] where it says AlreadyExistsError. *)
Definition isNotASubpathError (e : exn) : bool :=
  match e with
  | Error message => message =? "unimpl"
  | _ => false
  end.


(** ** The file system behind the Deno primitives *)

Inductive entry : Type :=
| File (text : string)
| Directory
| Symlink (target : string).

(** The state of the file system: the entry found at each absolute
    path string, as the primitives receive it.  Links are followed at
    the final component only; links in the directories above it are
    not part of this model. *)
Abbreviation FS := (gmap string entry).

(** Synchronous calls run against the file system and either return or
    throw; what they changed before throwing stays changed. *)
Definition M (A : Type) : Type := FS -> FS * result A.

Definition ret {A} (a : A) : M A := fun fs => (fs, Ok a).

Definition throw {A} (e : exn) : M A := fun fs => (fs, Throw e).

Definition bind {A B} (c : M A) (k : A -> M B) : M B :=
  fun fs =>
    match c fs with
    | (fs', Ok a) => k a fs'
    | (fs', Throw e) => (fs', Throw e)
    end.

Definition lift {A} (r : result A) : M A := fun fs => (fs, r).

(** [try { body } catch (err) { handler }] *)
Definition try_catch {A} (body : M A) (handler : exn -> M A) : M A :=
  fun fs =>
    match body fs with
    | (fs', Ok a) => (fs', Ok a)
    | (fs', Throw e) => handler e fs'
    end.

Declare Scope io_scope.
Delimit Scope io_scope with io.
Notation "x <- c1 ;; c2" := (bind c1 (fun x => c2))
  (at level 100, c1 at next level, right associativity) : io_scope.
Notation "c1 ;; c2" := (bind c1 (fun _ => c2))
  (at level 100, right associativity) : io_scope.
Local Open Scope io_scope.

Ltac unfold_io := unfold bind, ret, throw, lift, try_catch in *.

(** ** The [Deno] primitives Path.ts calls

    They are built into the runtime; each is modelled by what it does
    to the file system above. *)

Module Deno.

Record FileInfo : Type := {
  isFile : bool;
  isDirectory : bool;
  isSymlink : bool
}.

Definition info (e : entry) : FileInfo :=
  match e with
  | File _ => {| isFile := true; isDirectory := false; isSymlink := false |}
  | Directory =>
      {| isFile := false; isDirectory := true; isSymlink := false |}
  | Symlink _ =>
      {| isFile := false; isDirectory := false; isSymlink := true |}
  end.

(** Where the link at [path] with text [target] points: an absolute
    target as it is, a relative one from the directory of the link. *)
Definition link_destination (path target : string) : string :=
  if Js.starts_with_slash target then Posix.normalize target
  else Posix.normalize (Posix.dirname path +:+ "/" +:+ target).

(** The number of links a lookup follows before it gives up (ELOOP). *)
Definition max_links : nat := 40.

(** Follows the links at the final component of [path]. *)
Fixpoint follow (links : nat) (fs : FS) (path : string)
  : result (string * entry) :=
  match fs !! path with
  | None => Throw NotFound
  | Some (Symlink target) =>
      match links with
      | O => Throw (OsError "ELOOP")
      | S links' => follow links' fs (link_destination path target)
      end
  | Some e => Ok (path, e)
  end.

(** [Deno.lstatSync(path)] *)
Definition lstatSync (path : string) : M FileInfo :=
  fun fs =>
    match fs !! path with
    | Some e => (fs, Ok (info e))
    | None => (fs, Throw NotFound)
    end.

(** [Deno.statSync(path)] *)
Definition statSync (path : string) : M FileInfo :=
  fun fs =>
    match follow max_links fs path with
    | Ok (_, e) => (fs, Ok (info e))
    | Throw err => (fs, Throw err)
    end.

(** [Deno.readLinkSync(path)] *)
Definition readLinkSync (path : string) : M string :=
  fun fs =>
    match fs !! path with
    | Some (Symlink target) => (fs, Ok target)
    | Some _ => (fs, Throw (TypeError "EINVAL"))
    | None => (fs, Throw NotFound)
    end.


(** [q] lies strictly below the directory [dir]. *)
Definition inside (dir q : string) : bool :=
  String.prefix (if Js.ends_with_slash dir then dir else dir +:+ "/") q
  && negb (q =? dir).

Definition children (fs : FS) (dir : string) : FS :=
  filter (fun kv : string * entry => inside dir kv.1 = true) fs.

Definition without_children (fs : FS) (dir : string) : FS :=
  filter (fun kv : string * entry => inside dir kv.1 = false) fs.

Definition is_empty_dir (fs : FS) (dir : string) : bool :=
  bool_decide (children fs dir = ∅).

(** [Deno.removeSync(path, { recursive })] *)
Definition removeSync (path : string) (recursive : bool) : M unit :=
  fun fs =>
    match fs !! path with
    | None => (fs, Throw NotFound)
    | Some Directory =>
        if recursive then (delete path (without_children fs path), Ok tt)
        else if is_empty_dir fs path then (delete path fs, Ok tt)
        else (fs, Throw (OsError "ENOTEMPTY"))
    | Some _ => (delete path fs, Ok tt)
    end.

(** The key of an entry after [oldpath] was renamed to [newpath]. *)
Definition rekey (oldpath newpath q : string) : string :=
  if (q =? oldpath) || inside oldpath q then
    newpath +:+ String.substring (String.length oldpath)
                  (String.length q - String.length oldpath) q
  else q.

Definition moved (oldpath newpath : string) (fs : FS) : FS :=
  list_to_map
    (map (fun kv => (rekey oldpath newpath kv.1, kv.2))
       (map_to_list (delete newpath fs))).

(** [Deno.renameSync(oldpath, newpath)]: the directory of [newpath]
    must exist; a directory replaces only an empty directory and a
    file never replaces a directory. *)
Definition renameSync (oldpath newpath : string) : M unit :=
  fun fs =>
    match fs !! oldpath with
    | None => (fs, Throw NotFound)
    | Some e =>
        if oldpath =? newpath then (fs, Ok tt)
        else
          match follow max_links fs (Posix.dirname newpath) with
          | Throw err => (fs, Throw err)
          | Ok (_, Directory) =>
              match e, fs !! newpath with
              | Directory, Some Directory =>
                  if is_empty_dir fs newpath
                  then (moved oldpath newpath fs, Ok tt)
                  else (fs, Throw (OsError "ENOTEMPTY"))
              | Directory, Some _ => (fs, Throw (OsError "ENOTDIR"))
              | _, Some Directory => (fs, Throw (OsError "EISDIR"))
              | _, _ => (moved oldpath newpath fs, Ok tt)
              end
          | Ok _ => (fs, Throw (OsError "ENOTDIR"))
          end
    end.

(** [Deno.writeTextFileSync(path, text)]: the file is created or
    truncated; links at the final component are followed and the
    directory of the file must exist. *)
Fixpoint write_at (links : nat) (fs : FS) (path text : string)
  : FS * result unit :=
  match fs !! path with
  | Some (File _) => (<[path := File text]> fs, Ok tt)
  | Some Directory => (fs, Throw (OsError "EISDIR"))
  | Some (Symlink target) =>
      match links with
      | O => (fs, Throw (OsError "ELOOP"))
      | S links' => write_at links' fs (link_destination path target) text
      end
  | None =>
      match follow max_links fs (Posix.dirname path) with
      | Ok (_, Directory) => (<[path := File text]> fs, Ok tt)
      | Ok _ => (fs, Throw (OsError "ENOTDIR"))
      | Throw err => (fs, Throw err)
      end
  end.

Definition writeTextFileSync (path text : string) : M unit :=
  fun fs => write_at max_links fs path text.

(** [Deno.readTextFile(path)], awaited. *)
Definition readTextFile (path : string) : M string :=
  fun fs =>
    match follow max_links fs path with
    | Ok (_, File text) => (fs, Ok text)
    | Ok _ => (fs, Throw (OsError "EISDIR"))
    | Throw err => (fs, Throw err)
    end.

End Deno.

(** ** [std/fs]: [existsSync] and [moveSync] ([fs] in Path.ts) *)

Module StdFs.

(** [existsSync(filePath)]: an [lstat] that maps NotFound to [false]. *)
Definition existsSync (filePath : string) : M bool :=
  try_catch (Deno.lstatSync filePath ;; ret true)
    (fun err =>
       match err with
       | NotFound => ret false
       | _ => throw err
       end).

(** [isSubdir(src, dest)]: every segment of [src] is the segment of
    [dest] at the same index, and the two differ. *)
Fixpoint every_same (srcArray destArray : list string) : bool :=
  match srcArray, destArray with
  | [], _ => true
  | current :: srcArray', d :: destArray' =>
      (d =? current) && every_same srcArray' destArray'
  | _ :: _, [] => false
  end.

Definition isSubdir (src dest : string) : bool :=
  if src =? dest then false
  else every_same (Js.split src) (Js.split dest).

(** [moveSync(src, dest, { overwrite = false })] *)
Definition moveSync (src dest : string) (overwrite : option bool) : M unit :=
  srcStat <- Deno.statSync src ;;
  if Deno.isDirectory srcStat && isSubdir src dest then
    throw (Error ("Cannot move '" +:+ src +:+
                  "' to a subdirectory of itself, '" +:+ dest +:+ "'."))
  else
    (if default false overwrite then
       (there <- existsSync dest ;;
        if there then Deno.removeSync dest true else ret tt)
     else
       (there <- existsSync dest ;;
        if there then throw (Error "dest already exists.") else ret tt)) ;;
    Deno.renameSync src dest.

End StdFs.

(** ** The Path class *)

Module Path.

(** [readonly string: string] is the only field. *)
Record t : Type := mk { string : String.string }.

Inductive input : Type :=
| OfString (s : String.string)
| OfPath (p : t).

(** [constructor(input: string | Path)] *)
Definition new (i : input) : result t :=
  match i with
  | OfPath p => Ok (mk (string p))
  | OfString s =>
      if negb (Js.starts_with_slash s) then
        Throw (Error ("invalid absolute path: " +:+ s))
      else Ok (mk (Posix.normalize s))
  end.

(** [static root = new Path("/")] *)
Definition root : t := mk "/".

(** [parent()] *)
Definition parent (this : t) : result t :=
  new (OfString (Posix.dirname (string this))).

(** [toString()] *)
Definition toString (this : t) : String.string := string this.

(** [join(...components)] *)
Definition join (this : t) (components : list String.string) : result t :=
  let joined := Js.join components in
  if Js.starts_with_slash joined then new (OfString joined)
  else if Js.truthy joined then
    new (OfString (string this +:+ "/" +:+ joined))
  else Ok this.

(** [basename()] *)
Definition basename (this : t) : String.string :=
  Posix.basename (string this).

(** [eq(that)] and [neq(that)] *)
Definition eq (this that : t) : bool := (string this =? string that)%string.
Definition neq (this that : t) : bool := negb (eq this that).

(** [relative({ to: base })] *)
Definition relative (this base : t) : result String.string :=
  let pathComps := "/" :: Js.split (string this) in
  let baseComps := "/" :: Js.split (string base) in
  if Js.startsWith (string this) (string base) then
    Ok (Js.join (Js.slice pathComps (length baseComps)))
  else Throw (Error "unimpl").

(** [exists()] *)
Definition exists_ (this : t) : M bool :=
  try_catch (Deno.statSync (string this) ;; ret true)
    (fun err =>
       match err with
       | NotFound => ret false
       | _ => throw err
       end).

(** [isDirectory()] *)
Definition isDirectory (this : t) : M bool :=
  try_catch (st <- Deno.statSync (string this) ;; ret (Deno.isDirectory st))
    (fun err =>
       match err with
       | NotFound => ret false
       | _ => throw err
       end).

(** [isSymlink()] *)
Definition isSymlink (this : t) : M bool :=
  try_catch (st <- Deno.lstatSync (string this) ;; ret (Deno.isSymlink st))
    (fun err =>
       match err with
       | NotFound => ret false
       | _ => throw err
       end).

(** [readlink()]: the [catch] returns [this] on a [TypeError] with
    code EINVAL and rethrows everything else. *)
Definition readlink (this : t) : M t :=
  try_catch
    (output <- Deno.readLinkSync (string this) ;;
     lift (result_bind (parent this) (fun dir => join dir [output])))
    (fun err =>
       match err with
       | TypeError code =>
           if (code =? "EINVAL")%string then ret this else throw err
       | _ => throw err
       end).

(** [read()], awaited *)
Definition read (this : t) : M String.string :=
  Deno.readTextFile (string this).

(** [rm({recursive} = {recursive: false})] *)
Definition rm (this : t) (recursive : bool) : M unit :=
  there <- exists_ this ;;
  if there then Deno.removeSync (string this) recursive else ret tt.

(** The two shapes of the argument of [mv]. *)
Inductive destination : Type :=
| To (to : t)
| Into (into : t).

(** [mv({force, ...opts})] *)
Definition mv (this : t) (opts : destination) (force : option bool) : M t :=
  match opts with
  | To to =>
      StdFs.moveSync (string this) (string to) force ;;
      ret to
  | Into into =>
      dst <- lift (join into [basename this]) ;;
      StdFs.moveSync (string this) (string dst) force ;;
      ret dst
  end.

Section Write.

(** [PlainObject] and [JSON.stringify(json, null, space)] are taken
    as they come. *)
Context {PlainObject : Type}.
Variable stringify : PlainObject -> option nat -> String.string.

Inductive content : Type :=
| Text (text : String.string)
| Json (json : PlainObject) (space : option nat).

(** [write({ force, ...content })] *)
Definition write (this : t) (c : content) (force : option bool) : M t :=
  there <- exists_ this ;;
  (if there then
     if negb (default false force) then
       throw (Thrown ("file-exists:" +:+ toString this))
     else rm this false
   else ret tt) ;;
  match c with
  | Text text => Deno.writeTextFileSync (string this) text
  | Json json space =>
      let text := stringify json space in
      Deno.writeTextFileSync (string this) text
  end ;;
  ret this.

End Write.


(** [isFile()]: [undefined] also when the [catch] swallows NotFound. *)
Definition isFile (this : t) : M (option t) :=
  try_catch
    (st <- Deno.statSync (string this) ;;
     ret (if Deno.isFile st then Some this else None))
    (fun err =>
       match err with
       | NotFound => ret None
       | _ => throw err
       end).

(** [isExecutableFile()] and [isReadableFile()] *)
Definition isExecutableFile (this : t) : M (option t) :=
  found <- isFile this ;;
  ret (match found with Some _ => Some this | None => None end).

Definition isReadableFile (this : t) : M (option t) :=
  found <- isFile this ;;
  ret (match found with Some _ => Some this | None => None end).


(** [input.match(/\.tar\.\w+$/)]: the match starts at the first index
    from which the rest of the input is [.tar.] and then word
    characters, one at least, up to the end. *)
Definition tar_here (s : String.string) : bool :=
  match Js.strip_prefix ".tar." s with
  | Some w => Js.truthy w && forallb Js.is_word (list_ascii_of_string w)
  | None => false
  end.

Fixpoint match_tar (input : String.string) : option String.string :=
  if tar_here input then Some input
  else match input with
       | EmptyString => None
       | String _ rest => match_tar rest
       end.

(** [static extname(input)] *)
Definition static_extname (input : String.string) : String.string :=
  match match_tar input with
  | Some found => found
  | None => Posix.extname input
  end.

(** [extname()] *)
Definition extname (this : t) : String.string := static_extname (string this).

Section FrontMatter.

(** [parseYaml] of [deno/encoding/yaml.ts] is taken as it comes. *)
Context {Yaml : Type}.
Variable parseYaml : String.string -> result Yaml.

Fixpoint only_spaces (s : String.string) : bool :=
  match s with
  | EmptyString => true
  | String c s' => Js.is_space c && only_spaces s'
  end.

(** [line.match(/---\s*$/)]: somewhere in the line three dashes are
    followed by nothing but white space. *)
Fixpoint ends_with_dashes (line : String.string) : bool :=
  match line with
  | EmptyString => false
  | String _ rest =>
      match Js.strip_prefix "---" line with
      | Some after => only_spaces after || ends_with_dashes rest
      | None => ends_with_dashes rest
      end
  end.

(** [line.match(/^---\s*/)]: the line starts with three dashes. *)
Definition starts_with_dashes (line : String.string) : bool :=
  String.prefix "---" line.

(** The first loop: lines are shifted until one ends with the dashes;
    what is left of [lines] comes back, [None] when they ran out. *)
Fixpoint skip_to_dashes (lines : list String.string)
  : option (list String.string) :=
  match lines with
  | [] => None
  | line :: rest =>
      if ends_with_dashes line then Some rest else skip_to_dashes rest
  end.

(** The second loop: lines are appended to [yaml] until one starts with
    the dashes; when they run out, [line] is [undefined] and is appended
    as such before the loop ends. *)
Fixpoint collect (lines : list String.string) (yaml : String.string)
  : String.string :=
  match lines with
  | [] => yaml +:+ "undefined" +:+ String Js.newline ""
  | line :: rest =>
      if starts_with_dashes line then yaml
      else collect rest (yaml +:+ line +:+ String Js.newline "")
  end.

(** [readYAMLFrontMatter()], awaited *)
Definition readYAMLFrontMatter (this : t) : M Yaml :=
  txt <- read this ;;
  match Js.split_on Js.newline txt with
  | [] => throw (Thrown "no-front-matter")
  | _ :: lines =>
      match skip_to_dashes lines with
      | None | Some [] => throw (Thrown "no-front-matter")
      | Some rest => lift (parseYaml (collect rest ""))
      end
  end.

End FrontMatter.

Section Symlink.

(** [Deno.run({cmd, cwd}).status()], awaited: the exit code of the
    command, taken as it comes. *)
Variable run : list String.string -> String.string -> M nat.

(** [symlink({from, to, force})], awaited *)
Definition symlink (this from to : t) (force : option bool) : M t :=
  src <- lift (relative from this) ;;
  dst <- lift (relative to this) ;;
  let opts := if default false force then "-s" +:+ "fn" else "-s" in
  code <- run ["/bin/ln"; opts; src; dst] (string this) ;;
  if negb (code =? 0)%nat then
    throw (Thrown ("failed: cd " +:+ toString this +:+ " && ln -sf " +:+
                   src +:+ " " +:+ dst))
  else ret to.

End Symlink.

End Path.

(** ** The vocabulary of the specification *)

(** The segments of a path: the non-empty pieces between separators. *)
Definition segments (p : Path.t) : list string :=
  List.filter (fun seg => negb (seg =? "")) (Js.split (Path.string p)).

(** [l] starts with the segments [pre], compared segment by segment. *)
Fixpoint starts_with (l pre : list string) : bool :=
  match pre, l with
  | [], _ => true
  | a :: pre', b :: l' => (a =? b) && starts_with l' pre'
  | _ :: _, [] => false
  end.

(** A string without separator. *)
Fixpoint slash_free (s : string) : bool :=
  match s with
  | EmptyString => true
  | String c s' => negb (Js.is_slash c) && slash_free s'
  end.

(** No character of the list is a slash. *)
Definition slashless (l : list ascii) : Prop :=
  Forall (fun c => Js.is_slash c = false) l.

(** A segment that is neither empty nor ["."] nor [".."]. *)
Definition clean (seg : string) : bool :=
  negb (seg =? "") && negb (seg =? ".") && negb (seg =? "..").

(** A segment as [normalize] keeps it. *)
Definition kept (seg : string) : Prop :=
  clean seg = true /\ slash_free seg = true.

(** The segments [normalize] keeps of an absolute path. *)
Definition kept_segments (s : string) : list string :=
  Posix.normalizeString false [] (Js.split s).

(** Every piece is clean; the last one may be empty (what follows a
    trailing separator). *)
Fixpoint clean_pieces (pieces : list string) : bool :=
  match pieces with
  | [] => true
  | [piece] => (piece =? "") || clean piece
  | piece :: rest => clean piece && clean_pieces rest
  end.

(** An absolute string without ["."], [".."] or empty segments; one
    trailing separator is allowed. *)
Definition normalized (s : string) : bool :=
  match Js.split s with
  | "" :: ((_ :: _) as pieces) => clean_pieces pieces
  | _ => false
  end.

(** No trailing slash, except for the root itself. *)
Definition no_trailing_slash (s : string) : bool :=
  negb (Js.ends_with_slash s) || (s =? "/").

(** The invariant of the data model: absolute, normalized and without a
    trailing slash. *)
Definition strictly_normalized (s : string) : bool :=
  normalized s && no_trailing_slash s.


(** The text [write] puts into the file. *)
Definition written_text {PlainObject : Type}
    (stringify : PlainObject -> option nat -> string)
    (c : @Path.content PlainObject) : string :=
  match c with
  | Path.Text text => text
  | Path.Json json space => stringify json space
  end.


(** The lines, each followed by a line feed. *)
Fixpoint unlines (lines : list string) : string :=
  match lines with
  | [] => ""
  | line :: rest => line +:+ String Js.newline "" +:+ unlines rest
  end.

(** A serializer for the examples, which write text only. *)
Definition no_json (_ : unit) (_ : option nat) : string := "null".

(** ** The path functions on concrete inputs *)

Example root_is_new : Path.new (Path.OfString "/") = Ok Path.root.
Proof. reflexivity. Qed.

Example normalize_ex1 : Posix.normalize "///..//./foo/.//bar" = "/foo/bar".
Proof. reflexivity. Qed.
Example normalize_ex2 : Posix.normalize "bar/foo../../" = "bar/".
Proof. reflexivity. Qed.
Example normalize_ex3 : Posix.normalize "/foo/../../../bar" = "/bar".
Proof. reflexivity. Qed.
Example normalize_ex4 : Posix.normalize "../a/../../b/" = "../../b/".
Proof. reflexivity. Qed.
Example dirname_ex1 : Posix.dirname "/foo/bar/" = "/foo".
Proof. reflexivity. Qed.
Example dirname_ex2 : Posix.dirname "/foo" = "/".
Proof. reflexivity. Qed.
Example dirname_ex3 : Posix.dirname "/" = "/".
Proof. reflexivity. Qed.
Example dirname_ex4 : Posix.dirname "//a" = "//".
Proof. reflexivity. Qed.
Example dirname_ex5 : Posix.dirname "/a//b" = "/a/".
Proof. reflexivity. Qed.
Example dirname_ex6 : Posix.dirname "a/b" = "a".
Proof. reflexivity. Qed.
Example basename_ex1 : Posix.basename "/foo/bar/" = "bar".
Proof. reflexivity. Qed.
Example basename_ex2 : Posix.basename "/" = "".
Proof. reflexivity. Qed.

Example normalized_ex1 : normalized "/" = true.
Proof. reflexivity. Qed.
Example normalized_ex2 : normalized "/foo/bar/" = true.
Proof. reflexivity. Qed.
Example normalized_ex3 : normalized "/foo//bar" = false.
Proof. reflexivity. Qed.
Example normalized_ex4 : normalized "" = false.
Proof. reflexivity. Qed.
Example normalized_ex5 : normalized "/a/../b" = false.
Proof. reflexivity. Qed.
Example normalized_ex6 : normalized "//" = false.
Proof. reflexivity. Qed.
Example strictly_normalized_ex1 : strictly_normalized "/foo/bar" = true.
Proof. reflexivity. Qed.
Example strictly_normalized_ex2 : strictly_normalized "/foo/bar/" = false.
Proof. reflexivity. Qed.
Example strictly_normalized_ex3 : strictly_normalized "/" = true.
Proof. reflexivity. Qed.

(** ** [relative] *)

(** [relative] throws exactly when the string of [base] is not a
    character prefix of the string of [this]. *)
Lemma relative_throws_iff (this base : Path.t) :
  Path.relative this base = Throw (Error "unimpl") <->
  String.prefix (Path.string base) (Path.string this) = false.
Proof.
  unfold Path.relative, Js.startsWith.
  destruct (String.prefix _ _); split; intros H; congruence.
Qed.

Lemma relative_returns_iff (this base : Path.t) :
  (exists rel, Path.relative this base = Ok rel) <->
  String.prefix (Path.string base) (Path.string this) = true.
Proof.
  unfold Path.relative, Js.startsWith.
  destruct (String.prefix _ _); split; intros H; eauto.
  - destruct H; discriminate.
  - discriminate.
Qed.

(** The only error of [relative] is the one the specification calls
    NotASubpathError. *)
Lemma relative_error_kind (this base : Path.t) (e : exn) :
  Path.relative this base = Throw e -> isNotASubpathError e = true.
Proof.
  unfold Path.relative. destruct (Js.startsWith _ _); [discriminate|].
  now intros [= <-].
Qed.

(** C1: at base [/foo] and target [/foobar] the segments of the target
    do not start with the segments of the base, so [relative] ought to
    throw; it returns the empty string, because it tests [startsWith]
    on the two strings. *)
Theorem relative_foobar_to_foo :
  let base := Path.mk "/foo" in
  let target := Path.mk "/foobar" in
  Path.new (Path.OfString "/foo") = Ok base /\
  Path.new (Path.OfString "/foobar") = Ok target /\
  starts_with (segments target) (segments base) = false /\
  Path.relative target base = Ok "".
Proof. repeat split. Qed.

(** C2: at base [/] and target [/foo/bar] the segments of the target
    start with the (empty) segments of the base, yet [relative] returns
    ["bar"], so joining it onto the base gives [/bar], not the target. *)
Theorem relative_to_root_loses_a_segment :
  let target := Path.mk "/foo/bar" in
  Path.new (Path.OfString "/foo/bar") = Ok target /\
  starts_with (segments target) (segments Path.root) = true /\
  Path.relative target Path.root = Ok "bar" /\
  Path.join Path.root ["bar"] = Ok (Path.mk "/bar") /\
  Path.mk "/bar" <> target.
Proof. repeat split. discriminate. Qed.

(** ** [split] and [join] *)

Section SplitJoin.

Lemma is_slash_true (c : ascii) : Js.is_slash c = true -> c = "/"%char.
Proof. unfold Js.is_slash, Js.slash. intros H. now apply Ascii.eqb_eq. Qed.

Lemma append_cons (x : ascii) (a b : string) :
  String x a +:+ b = String x (a +:+ b).
Proof. reflexivity. Qed.

Lemma append_assoc (a b c : string) : (a +:+ b) +:+ c = a +:+ (b +:+ c).
Proof.
  induction a as [|x a IH]; [reflexivity|].
  now rewrite !append_cons, IH.
Qed.

Lemma append_empty_r (a : string) : a +:+ "" = a.
Proof.
  induction a as [|x a IH]; [reflexivity|].
  now rewrite append_cons, IH.
Qed.

Lemma prefix_append (a b : string) : String.prefix a (a +:+ b) = true.
Proof.
  induction a as [|x a IH]; [now destruct b|].
  rewrite append_cons. simpl.
  destruct (ascii_dec x x); [exact IH|congruence].
Qed.

Lemma split_not_nil (s : string) : Js.split s <> [].
Proof.
  destruct s as [|c s]; simpl; [discriminate|].
  destruct (Js.is_slash c); [discriminate|].
  destruct (Js.split s); discriminate.
Qed.

Lemma split_cons_slash (s : string) :
  Js.split (String "/" s) = "" :: Js.split s.
Proof. reflexivity. Qed.

Lemma split_slash_free (s : string) :
  slash_free s = true -> Js.split s = [s].
Proof.
  induction s as [|c s IH]; simpl; [reflexivity|].
  intros [Hc Hs]%andb_prop. apply negb_true_iff in Hc.
  rewrite Hc, (IH Hs). reflexivity.
Qed.

Lemma split_app_slash (a b : string) :
  slash_free a = true ->
  Js.split (a +:+ String "/" b) = a :: Js.split b.
Proof.
  induction a as [|c a IH]; simpl; [reflexivity|].
  intros [Hc Ha]%andb_prop. apply negb_true_iff in Hc.
  rewrite Hc, (IH Ha). reflexivity.
Qed.

Lemma split_pieces_slash_free (s : string) :
  Forall (fun piece => slash_free piece = true) (Js.split s).
Proof.
  induction s as [|c s IH]; simpl.
  - repeat constructor.
  - destruct (Js.is_slash c) eqn:Hc.
    + constructor; [reflexivity|assumption].
    + destruct (Js.split s) as [|seg segs].
      * repeat constructor. simpl. now rewrite Hc.
      * inversion IH; subst. constructor; [|assumption].
        simpl. now rewrite Hc.
Qed.

Lemma join_cons (piece : string) (pieces : list string) :
  pieces <> [] ->
  Js.join (piece :: pieces) = piece +:+ String "/" (Js.join pieces).
Proof. destruct pieces; [congruence|reflexivity]. Qed.

Lemma join_cons_char (c : ascii) (piece : string) (pieces : list string) :
  Js.join (String c piece :: pieces) = String c (Js.join (piece :: pieces)).
Proof. destruct pieces; reflexivity. Qed.

(** [s.split("/").join("/")] is [s]. *)
Lemma join_split (s : string) : Js.join (Js.split s) = s.
Proof.
  induction s as [|c s IH]; simpl; [reflexivity|].
  destruct (Js.is_slash c) eqn:Hc.
  - apply is_slash_true in Hc; subst c.
    rewrite join_cons by apply split_not_nil. simpl. now rewrite IH.
  - pose proof (split_not_nil s) as Hne.
    destruct (Js.split s) as [|seg segs]; [congruence|].
    rewrite join_cons_char. now rewrite IH.
Qed.

(** Joining separator-free pieces and splitting again gives them back. *)
Lemma split_join (pieces : list string) :
  pieces <> [] ->
  Forall (fun piece => slash_free piece = true) pieces ->
  Js.split (Js.join pieces) = pieces.
Proof.
  induction pieces as [|piece pieces IH]; [congruence|].
  intros _ Hall. inversion Hall as [|? ? Hpiece Hrest]; subst.
  destruct pieces as [|piece' pieces].
  - simpl. now apply split_slash_free.
  - rewrite join_cons by discriminate.
    rewrite split_app_slash by assumption.
    f_equal. apply IH; [discriminate|assumption].
Qed.

Lemma split_join_trailing (pieces : list string) :
  pieces <> [] ->
  Forall (fun piece => slash_free piece = true) pieces ->
  Js.split (Js.join pieces +:+ "/") = (pieces ++ [""])%list.
Proof.
  intros Hne Hall.
  replace (Js.join pieces +:+ "/") with (Js.join (pieces ++ [""])%list).
  - apply split_join.
    + destruct pieces; discriminate.
    + apply Forall_app; split; [assumption|repeat constructor].
  - clear Hall. induction pieces as [|piece pieces IH]; [congruence|].
    destruct pieces as [|piece' pieces].
    + simpl. reflexivity.
    + change ((piece :: piece' :: pieces) ++ [""])%list
        with (piece :: ((piece' :: pieces) ++ [""])%list).
      rewrite !join_cons by (try discriminate; destruct pieces; discriminate).
      rewrite IH by discriminate.
      rewrite append_assoc. reflexivity.
Qed.

End SplitJoin.

(** ** [normalize] produces normalized strings *)

Section Normalize.

Lemma normalizeString_kept (res segs : list string) :
  Forall kept res ->
  Forall (fun piece => slash_free piece = true) segs ->
  Forall kept (Posix.normalizeString false res segs).
Proof.
  revert res. induction segs as [|seg segs IH]; intros res Hres Hsegs; simpl.
  - now apply Forall_rev.
  - inversion Hsegs as [|? ? Hseg Hrest]; subst.
    destruct (seg =? "") eqn:E1; simpl; [now apply IH|].
    destruct (seg =? ".") eqn:E2; simpl; [now apply IH|].
    destruct (seg =? "..") eqn:E3.
    + destruct res as [|top res']; [now apply IH|].
      inversion Hres; subst.
      destruct (top =? ".."); now apply IH.
    + apply IH; [|assumption]. constructor; [|assumption].
      split; [|assumption]. unfold clean. now rewrite E1, E2, E3.
Qed.

Lemma kept_not_empty (seg : string) : kept seg -> Js.truthy seg = true.
Proof. intros [H _]. destruct seg; [discriminate|reflexivity]. Qed.

Lemma truthy_join (segs : list string) :
  Forall kept segs ->
  Js.truthy (Js.join segs) = match segs with [] => false | _ => true end.
Proof.
  intros H. destruct segs as [|seg segs]; [reflexivity|].
  inversion H as [|? ? Hseg _]; subst. apply kept_not_empty in Hseg.
  destruct seg; [discriminate|]. rewrite join_cons_char. reflexivity.
Qed.

Lemma clean_pieces_kept (segs : list string) :
  Forall kept segs -> clean_pieces segs = true.
Proof.
  induction 1 as [|seg segs [Hc _] _ IH]; [reflexivity|].
  simpl. destruct segs; rewrite Hc; [apply orb_true_r|exact IH].
Qed.

Lemma clean_pieces_kept_trailing (segs : list string) :
  Forall kept segs -> clean_pieces (segs ++ [""])%list = true.
Proof.
  induction 1 as [|seg segs [Hc _] _ IH]; [reflexivity|].
  change ((seg :: segs) ++ [""])%list with (seg :: (segs ++ [""]))%list.
  simpl. destruct (segs ++ [""])%list eqn:E.
  - destruct segs; discriminate.
  - now rewrite Hc.
Qed.

Lemma kept_slash_free (segs : list string) :
  Forall kept segs -> Forall (fun piece => slash_free piece = true) segs.
Proof. intros H. eapply Forall_impl; [exact H|]. now intros seg [_ ?]. Qed.

Lemma kept_segments_kept (s : string) : Forall kept (kept_segments s).
Proof.
  apply normalizeString_kept; [constructor|apply split_pieces_slash_free].
Qed.

(** The shape of [normalize] on an absolute path. *)
Lemma normalize_absolute (s : string) :
  Js.starts_with_slash s = true ->
  Posix.normalize s =
    String "/" (if match kept_segments s with [] => false | _ => true end
                   && Js.ends_with_slash s
                then Js.join (kept_segments s) +:+ "/"
                else Js.join (kept_segments s)).
Proof.
  intros Habs. destruct s as [|c s]; [discriminate|].
  unfold Posix.normalize. rewrite Habs. cbn [negb].
  fold (kept_segments (String c s)).
  rewrite andb_false_r, truthy_join by apply kept_segments_kept.
  reflexivity.
Qed.

Lemma normalize_normalized (s : string) :
  Js.starts_with_slash s = true -> normalized (Posix.normalize s) = true.
Proof.
  intros Habs. rewrite normalize_absolute by assumption.
  pose proof (kept_segments_kept s) as Hkept.
  unfold normalized. rewrite split_cons_slash.
  destruct (kept_segments s) as [|seg segs] eqn:E; [reflexivity|].
  destruct (Js.ends_with_slash s); cbn [andb].
  - rewrite split_join_trailing
      by (try discriminate; now apply kept_slash_free).
    rewrite <- app_comm_cons.
    now apply (clean_pieces_kept_trailing (seg :: segs)).
  - rewrite split_join by (try discriminate; now apply kept_slash_free).
    now apply clean_pieces_kept.
Qed.

Lemma ends_with_slash_app (a b : string) :
  b <> "" -> Js.ends_with_slash (a +:+ b) = Js.ends_with_slash b.
Proof.
  intros Hb. induction a as [|c a IH]; [reflexivity|].
  rewrite append_cons. simpl.
  destruct (a +:+ b) eqn:E; [|exact IH].
  destruct a; [|discriminate]. now apply Hb in E.
Qed.

Lemma ends_with_slash_slash_free (s : string) :
  slash_free s = true -> Js.ends_with_slash s = false.
Proof.
  induction s as [|c s IH]; [reflexivity|].
  simpl. intros [Hc Hs]%andb_prop. apply negb_true_iff in Hc.
  destruct s; [assumption|now apply IH].
Qed.

Lemma ends_with_slash_join (segs : list string) :
  Forall kept segs -> Js.ends_with_slash (Js.join segs) = false.
Proof.
  induction 1 as [|seg segs [Hc Hs] Hrest IH]; [reflexivity|].
  destruct segs as [|seg' segs].
  - now apply ends_with_slash_slash_free.
  - rewrite join_cons by discriminate.
    rewrite ends_with_slash_app by discriminate.
    pose proof (truthy_join _ Hrest) as Ht.
    simpl. destruct (Js.join (seg' :: segs)); [discriminate|exact IH].
Qed.

(** Without a trailing separator in the input there is none in the
    output, the root apart. *)
Lemma normalize_no_trailing_slash (s : string) :
  Js.starts_with_slash s = true ->
  Js.ends_with_slash s = false ->
  no_trailing_slash (Posix.normalize s) = true.
Proof.
  intros Habs Hend. rewrite normalize_absolute by assumption.
  rewrite Hend, andb_false_r.
  pose proof (ends_with_slash_join _ (kept_segments_kept s)) as Hj.
  unfold no_trailing_slash.
  destruct (Js.join (kept_segments s)) eqn:E; [reflexivity|].
  change (Js.ends_with_slash (String "/" (String a s0)))
    with (Js.ends_with_slash (String a s0)).
  now rewrite Hj.
Qed.

End Normalize.

(** ** The invariant of Path values *)

Section Invariant.

Lemma normalized_absolute (s : string) :
  normalized s = true -> Js.starts_with_slash s = true.
Proof.
  destruct s as [|c s]; [discriminate|].
  unfold normalized. simpl. destruct (Js.is_slash c); [reflexivity|].
  destruct (Js.split s); discriminate.
Qed.

Lemma starts_with_slash_app (a b : string) :
  Js.starts_with_slash a = true -> Js.starts_with_slash (a +:+ b) = true.
Proof. destruct a; [discriminate|]. now rewrite append_cons. Qed.

Lemma dirname_absolute (s : string) :
  Js.starts_with_slash s = true ->
  Js.starts_with_slash (Posix.dirname s) = true.
Proof.
  destruct s as [|c s]; [discriminate|]. simpl. intros Hc.
  unfold Posix.dirname. rewrite Hc.
  destruct (Posix.drop_non_slashes _) as [|x before]; [reflexivity|].
  destruct before; [reflexivity|exact Hc].
Qed.

(** The constructor accepts exactly the strings that start with a
    slash, and stores their normal form. *)
Lemma new_of_string (s : string) :
  Js.starts_with_slash s = true ->
  Path.new (Path.OfString s) = Ok (Path.mk (Posix.normalize s)).
Proof. intros H. unfold Path.new. now rewrite H. Qed.

Lemma new_rejects (s : string) :
  Js.starts_with_slash s = false ->
  Path.new (Path.OfString s) = Throw (Error ("invalid absolute path: " +:+ s)).
Proof. intros H. unfold Path.new. now rewrite H. Qed.

Lemma new_normalized (s : string) (p : Path.t) :
  Path.new (Path.OfString s) = Ok p -> normalized (Path.string p) = true.
Proof.
  unfold Path.new. destruct (Js.starts_with_slash s) eqn:H; [|discriminate].
  intros [= <-]. now apply normalize_normalized.
Qed.

Lemma join_normalized (base : Path.t) (components : list string) :
  normalized (Path.string base) = true ->
  exists p, Path.join base components = Ok p /\
            normalized (Path.string p) = true.
Proof.
  intros Hbase. unfold Path.join.
  destruct (Js.starts_with_slash (Js.join components)) eqn:Habs.
  - rewrite new_of_string by assumption.
    eexists; split; [reflexivity|]. now apply normalize_normalized.
  - destruct (Js.truthy (Js.join components)).
    + assert (Js.starts_with_slash
                (Path.string base +:+ "/" +:+ Js.join components) = true)
        as H by now apply starts_with_slash_app, normalized_absolute.
      rewrite new_of_string by assumption.
      eexists; split; [reflexivity|]. now apply normalize_normalized.
    + now exists base.
Qed.

Lemma parent_normalized (p : Path.t) :
  Js.starts_with_slash (Path.string p) = true ->
  exists q, Path.parent p = Ok q /\ normalized (Path.string q) = true.
Proof.
  intros Hp. unfold Path.parent.
  rewrite new_of_string by now apply dirname_absolute.
  eexists; split; [reflexivity|].
  now apply normalize_normalized, dirname_absolute.
Qed.

(** The path [mv] moves to. *)
Lemma mv_returns (this : Path.t) (opts : Path.destination)
    (force : option bool) (fs fs' : FS) (q : Path.t) :
  Path.mv this opts force fs = (fs', Ok q) ->
  match opts with
  | Path.To to => q = to
  | Path.Into into => Path.join into [Path.basename this] = Ok q
  end.
Proof.
  unfold Path.mv. destruct opts as [to|into].
  - unfold bind, ret.
    destruct (StdFs.moveSync _ _ _ fs) as [fs1 [[]|e]]; congruence.
  - unfold bind, lift, ret.
    destruct (Path.join into [Path.basename this]) as [dst|e]; [|discriminate].
    destruct (StdFs.moveSync _ _ _ fs) as [fs1 [[]|e]]; congruence.
Qed.

End Invariant.

(** C3 (amended): the stored string of a Path starts with a slash and
    has no ["."], [".."] or empty segment, but it keeps one trailing
    slash when the string given to the constructor ends with one.  This
    holds after construction from every accepted string, and [join],
    [parent] and the value returned by [mv] preserve it; a string
    without trailing slash gives a Path without one. *)
Theorem path_strings_are_normalized :
  (forall s, Js.starts_with_slash s = true ->
     exists p, Path.new (Path.OfString s) = Ok p /\
               normalized (Path.string p) = true /\
               (Js.ends_with_slash s = false ->
                strictly_normalized (Path.string p) = true)) /\
  (forall s p, Path.new (Path.OfString s) = Ok p ->
               Js.starts_with_slash s = true /\
               normalized (Path.string p) = true) /\
  (forall p, Path.new (Path.OfPath p) = Ok p) /\
  (forall base components,
     normalized (Path.string base) = true ->
     exists p, Path.join base components = Ok p /\
               normalized (Path.string p) = true) /\
  (forall p,
     normalized (Path.string p) = true ->
     exists q, Path.parent p = Ok q /\ normalized (Path.string q) = true) /\
  (forall this opts force fs fs' q,
     normalized (Path.string this) = true ->
     normalized (Path.string
                   match opts with Path.To p | Path.Into p => p end) = true ->
     Path.mv this opts force fs = (fs', Ok q) ->
     normalized (Path.string q) = true).
Proof.
  repeat split.
  - intros s Habs. rewrite new_of_string by assumption.
    eexists; split; [reflexivity|]. split.
    + now apply normalize_normalized.
    + intros Hend. unfold strictly_normalized. simpl.
      rewrite normalize_normalized by assumption.
      now rewrite normalize_no_trailing_slash.
  - unfold Path.new in H.
    destruct (Js.starts_with_slash s); [reflexivity|discriminate].
  - now apply new_normalized in H.
  - now destruct p.
  - intros base components Hbase. now apply join_normalized.
  - intros p Hp. now apply parent_normalized, normalized_absolute.
  - intros this opts force fs fs' q Hthis Hdest Hmv.
    apply mv_returns in Hmv. destruct opts as [to|into].
    + now subst q.
    + destruct (join_normalized into [Path.basename this] Hdest)
        as (p & Hjoin & Hp).
      congruence.
Qed.

(** At ["/foo/bar/"] the constructor keeps the trailing slash. *)
Lemma path_strings_are_normalized_at_trailing_slash :
  exists p, Path.new (Path.OfString "/foo/bar/") = Ok p /\
            normalized (Path.string p) = true.
Proof.
  destruct (proj1 path_strings_are_normalized "/foo/bar/" eq_refl)
    as (p & Hnew & Hnorm & _).
  exists p. split; assumption.
Defined.

(** C3 as stated fails: the Path built from ["/foo/"] stores ["/foo/"],
    which ends with a slash and is not the root; so does a [join] with
    a component that ends with a slash. *)
Lemma trailing_slash_is_kept :
  Path.new (Path.OfString "/foo/") = Ok (Path.mk "/foo/") /\
  strictly_normalized "/foo/" = false /\
  Path.join (Path.mk "/tmp") ["x/"] = Ok (Path.mk "/tmp/x/") /\
  strictly_normalized "/tmp/x/" = false.
Proof. repeat split. Qed.

(** ** [join] *)

(** C8: with [joined] the components joined by ["/"]: an absolute
    [joined] gives the Path of [joined] alone, whatever the base; an
    empty [joined] gives the base itself; any other gives the Path of
    the normalized [base + "/" + joined].  So [/tmp/x] joined with
    [y], [z] is [/tmp/x/y/z], and joined with [/abs] it is [/abs]. *)
Theorem join_cases (base : Path.t) (components : list string) :
  Js.starts_with_slash (Path.string base) = true ->
  let joined := Js.join components in
  (Js.starts_with_slash joined = true ->
   Path.join base components = Path.new (Path.OfString joined) /\
   Path.join base components = Ok (Path.mk (Posix.normalize joined))) /\
  (joined = "" -> Path.join base components = Ok base) /\
  (Js.starts_with_slash joined = false -> joined <> "" ->
   Path.join base components =
     Ok (Path.mk (Posix.normalize (Path.string base +:+ "/" +:+ joined)))) /\
  Path.new (Path.OfString "/tmp/x") = Ok (Path.mk "/tmp/x") /\
  Path.join (Path.mk "/tmp/x") ["y"; "z"] =
    Path.new (Path.OfString "/tmp/x/y/z") /\
  Path.join (Path.mk "/tmp/x") ["/abs"] = Path.new (Path.OfString "/abs").
Proof.
  intros Hbase joined. unfold Path.join. fold joined.
  split; [|split; [|split]].
  - intros Habs. rewrite Habs. split; [reflexivity|].
    now apply new_of_string.
  - intros ->. reflexivity.
  - intros Hrel Hne. rewrite Hrel.
    destruct joined as [|c rest] eqn:E; [congruence|]. cbn [Js.truthy].
    apply new_of_string. now apply starts_with_slash_app.
  - repeat split.
Qed.

(** [join_cases] at the base [/tmp/x] and the components [y], [z]. *)
Lemma join_cases_tmp_x_y_z :
  Path.join (Path.mk "/tmp/x") ["y"; "z"] = Ok (Path.mk "/tmp/x/y/z").
Proof.
  exact (proj1 (proj2 (proj2 (join_cases (Path.mk "/tmp/x") ["y"; "z"] eq_refl)))
           eq_refl ltac:(discriminate)).
Defined.

(** ** Looking up entries *)

Section Lookup.

Variable fs : FS.

Lemma follow_absent (links : nat) (path : string) :
  fs !! path = None -> Deno.follow links fs path = Throw NotFound.
Proof. intros H. destruct links; simpl; now rewrite H. Qed.

Lemma follow_present (links : nat) (path q : string) (e : entry) :
  Deno.follow links fs path = Ok (q, e) -> is_Some (fs !! path).
Proof.
  destruct links; simpl; destruct (fs !! path); eauto; discriminate.
Qed.

Lemma follow_not_link (links : nat) (path : string) (e : entry) :
  fs !! path = Some e ->
  (forall target, e <> Symlink target) ->
  Deno.follow links fs path = Ok (path, e).
Proof.
  intros H Hne. destruct links; simpl; rewrite H;
    destruct e; try reflexivity; now destruct (Hne target).
Qed.


(** [statSync] and [exists] never change the file system. *)
Lemma statSync_pure (path : string) :
  (Deno.statSync path fs).1 = fs.
Proof. unfold Deno.statSync. now destruct (Deno.follow _ _ _) as [[]|]. Qed.

Lemma exists_spec (p : Path.t) :
  Path.exists_ p fs =
    match Deno.follow Deno.max_links fs (Path.string p) with
    | Ok _ => (fs, Ok true)
    | Throw NotFound => (fs, Ok false)
    | Throw err => (fs, Throw err)
    end.
Proof.
  unfold Path.exists_, Deno.statSync. unfold_io.
  destruct (Deno.follow _ _ _) as [[q e]|err]; [reflexivity|].
  now destruct err.
Qed.

Lemma exists_absent (p : Path.t) :
  fs !! Path.string p = None -> Path.exists_ p fs = (fs, Ok false).
Proof. intros H. rewrite exists_spec. now rewrite follow_absent. Qed.

Lemma exists_true_present (p : Path.t) :
  Path.exists_ p fs = (fs, Ok true) -> is_Some (fs !! Path.string p).
Proof.
  rewrite exists_spec.
  destruct (Deno.follow _ _ _) as [[q e]|err] eqn:E.
  - intros _. now apply follow_present in E.
  - destruct err; discriminate.
Qed.

(** [rm] does nothing where [exists] answers no. *)
Lemma rm_not_exists (p : Path.t) (recursive : bool) :
  Path.exists_ p fs = (fs, Ok false) -> Path.rm p recursive fs = (fs, Ok tt).
Proof. intros H. unfold Path.rm. unfold_io. now rewrite H. Qed.

End Lookup.

(** ** [rm] *)





(** ** [readlink] *)

(** C7: at a symlink, [readlink] returns the parent joined with the
    text of the link.  Nothing but the entry at the path itself is
    looked at: neither the destination of the link (which may be
    missing) nor the directories above it. *)
Theorem readlink_symlink (p : Path.t) (target : string) (fs : FS) :
  Js.starts_with_slash (Path.string p) = true ->
  fs !! Path.string p = Some (Symlink target) ->
  exists dir q,
    Path.parent p = Ok dir /\
    Path.join dir [target] = Ok q /\
    Path.readlink p fs = (fs, Ok q).
Proof.
  intros Habs Hlink.
  destruct (parent_normalized p Habs) as (dir & Hparent & Hdir).
  destruct (join_normalized dir [target] Hdir) as (q & Hjoin & _).
  exists dir, q. repeat split; try assumption.
  unfold Path.readlink, Deno.readLinkSync. unfold_io.
  rewrite Hlink, Hparent. simpl. now rewrite Hjoin.
Qed.

(** [readlink_symlink] at the link [/a -> /b] with no entry at [/b]. *)
Lemma readlink_symlink_dangling :
  let fs : FS := {[ "/" := Directory; "/a" := Symlink "/b" ]} in
  fs !! "/b" = None /\
  exists dir q,
    Path.parent (Path.mk "/a") = Ok dir /\
    Path.join dir ["/b"] = Ok q /\
    Path.readlink (Path.mk "/a") fs = (fs, Ok q).
Proof.
  split; [reflexivity|].
  apply (readlink_symlink (Path.mk "/a") "/b"); reflexivity.
Defined.

Example readlink_dangling_absolute :
  Path.readlink (Path.mk "/a") {[ "/" := Directory; "/a" := Symlink "/b" ]}
  = ({[ "/" := Directory; "/a" := Symlink "/b" ]}, Ok (Path.mk "/b")).
Proof. reflexivity. Qed.

Example readlink_dangling_relative :
  Path.readlink (Path.mk "/x/a")
    {[ "/" := Directory; "/x" := Directory; "/x/a" := Symlink "../gone/b" ]}
  = ({[ "/" := Directory; "/x" := Directory; "/x/a" := Symlink "../gone/b" ]},
     Ok (Path.mk "/gone/b")).
Proof. reflexivity. Qed.

(** ** [mv] *)

Section Move.

Variable fs : FS.

Lemma existsSync_spec (path : string) :
  StdFs.existsSync path fs =
    (fs, Ok match fs !! path with Some _ => true | None => false end).
Proof.
  unfold StdFs.existsSync, Deno.lstatSync. unfold_io.
  now destruct (fs !! path).
Qed.




End Move.



(** C6: the file [/a] is moved with [force] onto the directory [/d],
    which holds [/d/k].  By the comment above [mv] the call ought to
    throw; it returns [/d], and the directory and what it held are
    gone, replaced by the file. *)
Theorem mv_force_replaces_directory :
  let fs : FS :=
    {[ "/" := Directory; "/a" := File "x";
       "/d" := Directory; "/d/k" := File "y" ]} in
  Path.isDirectory (Path.mk "/d") fs = (fs, Ok true) /\
  Path.mv (Path.mk "/a") (Path.To (Path.mk "/d")) (Some true) fs =
    ({[ "/" := Directory; "/d" := File "x" ]}, Ok (Path.mk "/d")).
Proof. split; vm_compute; reflexivity. Qed.

(** ** [write] *)

Section WriteLemmas.

Context {PlainObject : Type}.
Variable stringify : PlainObject -> option nat -> string.







Lemma removeSync_not_directory (path : string) (recursive : bool)
    (fs : FS) (e : entry) :
  fs !! path = Some e -> e <> Directory ->
  Deno.removeSync path recursive fs = (delete path fs, Ok tt).
Proof.
  intros H Hne. unfold Deno.removeSync. rewrite H.
  destruct e; congruence.
Qed.

Lemma rm_exists (p : Path.t) (recursive : bool) (fs : FS) :
  Path.exists_ p fs = (fs, Ok true) ->
  Path.rm p recursive fs = Deno.removeSync (Path.string p) recursive fs.
Proof. intros H. unfold Path.rm. unfold_io. now rewrite H. Qed.







End WriteLemmas.

Section WritePolicy.

Context {PlainObject : Type}.
Variable stringify : PlainObject -> option nat -> string.
Variables (this : Path.t) (c : @Path.content PlainObject).
Variables (force : option bool) (fs : FS).

Let text : string := written_text stringify c.
Let path : string := Path.string this.






End WritePolicy.



Example write_then_write_then_read :
  let f := Path.mk "/f" in
  let fs0 : FS := {[ "/" := Directory ]} in
  let (fs1, r1) := Path.write no_json f (Path.Text "x") None fs0 in
  let (fs2, r2) := Path.write no_json f (Path.Text "y") (Some false) fs1 in
  let (fs3, r3) := Path.write no_json f (Path.Text "y") (Some true) fs2 in
  let (fs4, r4) := Path.read f fs3 in
  r1 = Ok f /\ r2 = Throw (Thrown "file-exists:/f") /\ fs2 = fs1 /\
  r3 = Ok f /\ r4 = Ok "y".
Proof. vm_compute. repeat split. Qed.

(** ** [relative] followed by [join], away from the root *)

Section RoundTrip.

Lemma normalizeString_clean (res segs : list string) :
  Forall (fun seg => clean seg = true) segs ->
  Posix.normalizeString false res segs = (rev res ++ segs)%list.
Proof.
  revert res. induction segs as [|seg segs IH]; intros res Hall; simpl.
  - now rewrite app_nil_r.
  - inversion Hall as [|? ? Hseg Hrest]; subst.
    unfold clean in Hseg.
    apply andb_prop in Hseg as [[H1 H2]%andb_prop H3].
    apply negb_true_iff in H1, H2, H3. rewrite H1, H2, H3. simpl.
    rewrite IH by assumption. simpl. now rewrite <- app_assoc.
Qed.

Lemma join_snoc_empty (front : list string) :
  front <> [] -> Js.join (front ++ [""])%list = Js.join front +:+ "/".
Proof.
  induction front as [|piece front IH]; [congruence|]. intros _.
  destruct front as [|piece' front]; [reflexivity|].
  change ((piece :: piece' :: front) ++ [""])%list
    with (piece :: ((piece' :: front) ++ [""])%list).
  rewrite !join_cons by (try discriminate; destruct front; discriminate).
  rewrite IH by discriminate. now rewrite append_assoc.
Qed.

Lemma join_app (front back : list string) :
  front <> [] -> back <> [] ->
  Js.join (front ++ back)%list = Js.join front +:+ String "/" (Js.join back).
Proof.
  intros Hfront Hback.
  induction front as [|piece front IH]; [congruence|].
  destruct front as [|piece' front].
  - simpl. now rewrite join_cons.
  - change ((piece :: piece' :: front) ++ back)%list
      with (piece :: ((piece' :: front) ++ back)%list).
    rewrite !join_cons by discriminate.
    rewrite IH by discriminate. now rewrite append_assoc.
Qed.

Lemma clean_pieces_cases (pieces : list string) :
  clean_pieces pieces = true ->
  Forall (fun seg => clean seg = true) pieces \/
  exists front, pieces = (front ++ [""])%list /\
                Forall (fun seg => clean seg = true) front.
Proof.
  induction pieces as [|piece pieces IH]; [now left|].
  destruct pieces as [|piece' pieces].
  - simpl. intros [H|H]%orb_prop.
    + apply String.eqb_eq in H as ->. right. now exists [].
    + left. now repeat constructor.
  - intros [Hpiece Hrest]%andb_prop.
    destruct (IH Hrest) as [Hall|(front & -> & Hall)].
    + left. now constructor.
    + right. exists (piece :: front). split; [reflexivity|now constructor].
Qed.

(** The two shapes of a strictly normalized string. *)
Lemma strictly_normalized_shape (s : string) :
  strictly_normalized s = true ->
  s = "/" \/
  exists segs, segs <> [] /\ Forall kept segs /\ s = String "/" (Js.join segs).
Proof.
  unfold strictly_normalized, normalized, no_trailing_slash.
  intros [Hnorm Htrail]%andb_prop.
  destruct (s =? "/") eqn:Hroot; [left; now apply String.eqb_eq|].
  rewrite orb_false_r in Htrail. apply negb_true_iff in Htrail.
  pose proof (join_split s) as Hs.
  pose proof (split_pieces_slash_free s) as Hfree.
  destruct (Js.split s) as [|[|] [|piece pieces]]; try discriminate.
  apply Forall_cons in Hfree as [_ Hfree'].
  rewrite join_cons in Hs by discriminate.
  change ("" +:+ String "/" (Js.join (piece :: pieces)))
    with (String "/" (Js.join (piece :: pieces))) in Hs.
  right. destruct (clean_pieces_cases _ Hnorm) as [Hall|(front & Hfront & Hall)].
  - exists (piece :: pieces). split; [discriminate|]. split; [|congruence].
    apply Forall_forall. intros seg Hin. split.
    + now apply (proj1 (Forall_forall _ _) Hall).
    + now apply (proj1 (Forall_forall _ _) Hfree').
  - exfalso. rewrite Hfront in Hs. subst s.
    destruct front as [|x front]; [discriminate|].
    rewrite join_snoc_empty in Htrail by discriminate.
    change (Js.ends_with_slash
              (String "/" (Js.join (x :: front) +:+ "/")))
      with (match Js.join (x :: front) +:+ "/" with
            | "" => true
            | _ => Js.ends_with_slash (Js.join (x :: front) +:+ "/")
            end) in Htrail.
    rewrite ends_with_slash_app in Htrail by discriminate.
    destruct (Js.join (x :: front) +:+ "/"); discriminate.
Qed.

Lemma kept_clean (segs : list string) :
  Forall kept segs -> Forall (fun seg => clean seg = true) segs.
Proof. intros H. eapply Forall_impl; [exact H|]. now intros seg [? _]. Qed.

(** [normalize] leaves a strictly normalized string as it is. *)
Lemma normalize_strictly_normalized (s : string) :
  strictly_normalized s = true -> Posix.normalize s = s.
Proof.
  intros [->|(segs & Hne & Hkept & ->)]%strictly_normalized_shape;
    [reflexivity|].
  rewrite normalize_absolute by reflexivity.
  unfold kept_segments. rewrite split_cons_slash.
  rewrite split_join by (try assumption; now apply kept_slash_free).
  cbn [Posix.normalizeString String.eqb orb].
  rewrite normalizeString_clean by now apply kept_clean.
  cbn [rev app].
  replace (Js.ends_with_slash (String "/" (Js.join segs))) with false.
  - now rewrite andb_false_r.
  - pose proof (ends_with_slash_join _ Hkept) as Hend.
    pose proof (truthy_join _ Hkept) as Htruthy.
    destruct segs; [congruence|].
    simpl. destruct (Js.join (s :: segs)); [discriminate|now symmetry].
Qed.

Lemma segments_of_kept (segs : list string) :
  Forall kept segs ->
  List.filter (fun seg => negb (seg =? "")) segs = segs.
Proof.
  induction 1 as [|seg segs [Hclean _] _ IH]; [reflexivity|].
  simpl. unfold clean in Hclean.
  apply andb_prop in Hclean as [[H1 _]%andb_prop _].
  now rewrite H1, IH.
Qed.

Lemma starts_with_app (l pre : list string) :
  starts_with l pre = true -> exists rest, l = (pre ++ rest)%list.
Proof.
  revert l. induction pre as [|a pre IH]; intros l; [now exists l|].
  destruct l as [|b l]; [discriminate|]. simpl.
  intros [Hab Hrest]%andb_prop. apply String.eqb_eq in Hab as ->.
  destruct (IH _ Hrest) as [rest ->]. now exists rest.
Qed.

(** X6: for a base other than the root, [relative] and [join] do undo
    each other on strictly normalized paths. *)
Lemma join_relative_below_root (base target : Path.t) :
  strictly_normalized (Path.string base) = true ->
  strictly_normalized (Path.string target) = true ->
  Path.string base <> "/" ->
  starts_with (segments target) (segments base) = true ->
  exists rel,
    Path.relative target base = Ok rel /\
    Path.join base [rel] = Ok target.
Proof.
  destruct base as [B], target as [T]. unfold segments. cbn [Path.string].
  intros [->|(bs & Hbs & Hkb & ->)]%strictly_normalized_shape HT Hroot;
    [congruence|].
  pose proof HT as HnormT.
  apply strictly_normalized_shape in HT as [->|(ts & Hts & Hkt & ->)].
  { rewrite !split_cons_slash.
    rewrite split_join by (try assumption; now apply kept_slash_free).
    cbn [List.filter String.eqb negb Js.split].
    rewrite segments_of_kept by assumption.
    destruct bs; [congruence|discriminate]. }
  rewrite !split_cons_slash.
  rewrite !split_join by (try assumption; now apply kept_slash_free).
  cbn [List.filter String.eqb negb].
  rewrite !segments_of_kept by assumption.
  intros [rest ->]%starts_with_app.
  unfold Path.relative, Js.startsWith. cbn [Path.string].
  rewrite !split_cons_slash.
  rewrite !split_join by (try assumption; now apply kept_slash_free).
  assert (Js.slice ("/" :: "" :: bs ++ rest)%list
            (length ("/" :: "" :: bs)) = rest) as ->.
  { unfold Js.slice. cbn [length skipn].
    change (skipn (length bs) (bs ++ rest)%list) with (drop (length bs) (bs ++ rest)%list).
    apply drop_app_length. }
  destruct rest as [|r rest].
  - rewrite app_nil_r in *.
    replace (String.prefix (String "/" (Js.join bs)) (String "/" (Js.join bs)))
      with true
      by (rewrite <- (append_empty_r (String "/" (Js.join bs))) at 2;
          now rewrite prefix_append).
    exists "". split; reflexivity.
  - rewrite join_app by (try assumption; discriminate).
    change (String "/" (Js.join bs +:+ String "/" (Js.join (r :: rest))))
      with (String "/" (Js.join bs) +:+ String "/" (Js.join (r :: rest))).
    rewrite prefix_append.
    exists (Js.join (r :: rest)). split; [reflexivity|].
    apply Forall_app in Hkt as [_ Hkrest].
    inversion Hkrest as [|? ? [Hclean Hfree] _]; subst.
    unfold Path.join. cbn [Path.string].
    change (Js.join [Js.join (r :: rest)]) with (Js.join (r :: rest)).
    assert (Js.starts_with_slash (Js.join (r :: rest)) = false /\
            Js.truthy (Js.join (r :: rest)) = true) as [Hrel Htruthy].
    { destruct r as [|c r]; [discriminate|]. rewrite join_cons_char.
      simpl in Hfree. apply andb_prop in Hfree as [Hc _].
      apply negb_true_iff in Hc. now split. }
    rewrite Hrel, Htruthy.
    change (String "/" (Js.join bs) +:+ "/" +:+ Js.join (r :: rest))
      with (String "/" (Js.join bs) +:+ String "/" (Js.join (r :: rest))).
    rewrite new_of_string by reflexivity.
    rewrite normalize_strictly_normalized; [reflexivity|].
    rewrite join_app in HnormT by (try assumption; discriminate).
    exact HnormT.
Qed.

End RoundTrip.


(** ** [mv] with [force] onto a directory, in general *)

Section ForcedMove.

Variable fs : FS.

Lemma lookup_after_recursive_remove (dir q : string) :
  q <> dir -> Deno.inside dir q = false ->
  delete dir (Deno.without_children fs dir) !! q = fs !! q.
Proof.
  intros Hne Hout. rewrite lookup_delete_ne by congruence.
  unfold Deno.without_children.
  destruct (fs !! q) as [e|] eqn:E.
  - apply map_lookup_filter_Some. split; [assumption|exact Hout].
  - apply map_lookup_filter_None. left. assumption.
Qed.

(** Whatever the directory at the destination holds, a file moved onto
    it with [force] arrives: [mv] returns the destination. *)
Lemma mv_force_onto_directory (this to : Path.t) (text : string) :
  fs !! Path.string this = Some (File text) ->
  fs !! Path.string to = Some Directory ->
  fs !! Posix.dirname (Path.string to) = Some Directory ->
  Posix.dirname (Path.string to) <> Path.string to ->
  Deno.inside (Path.string to) (Path.string this) = false ->
  Deno.inside (Path.string to) (Posix.dirname (Path.string to)) = false ->
  exists fs', Path.mv this (Path.To to) (Some true) fs = (fs', Ok to).
Proof.
  intros Hsrc Hdst Hdir Hparent Hout Hout'.
  assert (Path.string this <> Path.string to) as Hne by congruence.
  unfold Path.mv, StdFs.moveSync, Deno.statSync. unfold_io.
  rewrite (follow_not_link fs _ _ (File text) Hsrc) by discriminate.
  change (default false (Some true)) with true.
  cbn [Deno.info Deno.isDirectory andb]. cbv beta iota.
  rewrite existsSync_spec, Hdst.
  unfold Deno.removeSync. rewrite Hdst.
  unfold Deno.renameSync.
  rewrite (lookup_after_recursive_remove _ _ Hne Hout), Hsrc.
  apply String.eqb_neq in Hne. rewrite Hne.
  rewrite (follow_not_link _ _ (Posix.dirname (Path.string to)) Directory);
    [|now rewrite lookup_after_recursive_remove|discriminate].
  rewrite lookup_delete_eq. eauto.
Qed.

End ForcedMove.

(** ** The shape of normalized strings *)

Section Shapes.

Lemma strictly_normalized_of_kept (segs : list string) :
  Forall kept segs -> strictly_normalized (String "/" (Js.join segs)) = true.
Proof.
  intros Hkept. destruct segs as [|seg segs]; [reflexivity|].
  unfold strictly_normalized, normalized, no_trailing_slash.
  rewrite split_cons_slash.
  rewrite split_join by (try discriminate; now apply kept_slash_free).
  rewrite (clean_pieces_kept _ Hkept). cbn [andb].
  pose proof (ends_with_slash_join _ Hkept) as Hend.
  pose proof (truthy_join _ Hkept) as Htruthy.
  simpl. destruct (Js.join (seg :: segs)); [discriminate|].
  now rewrite Hend.
Qed.

(** A strictly normalized string is a slash followed by kept segments
    joined by slashes; the root has no segment. *)
Lemma strictly_normalized_segs (s : string) :
  strictly_normalized s = true ->
  exists segs, Forall kept segs /\ s = String "/" (Js.join segs).
Proof.
  intros [->|(segs & _ & Hkept & ->)]%strictly_normalized_shape.
  - now exists [].
  - now exists segs.
Qed.

(** A normalized string may end with one more slash. *)
Lemma normalized_shape (s : string) :
  normalized s = true ->
  exists segs,
    Forall kept segs /\
    (s = String "/" (Js.join segs) \/
     (segs <> [] /\ s = String "/" (Js.join segs +:+ "/"))).
Proof.
  unfold normalized. intros Hnorm.
  pose proof (join_split s) as Hs.
  pose proof (split_pieces_slash_free s) as Hfree.
  destruct (Js.split s) as [|[|] [|piece pieces]]; try discriminate.
  apply Forall_cons in Hfree as [_ Hfree'].
  rewrite join_cons in Hs by discriminate.
  change ("" +:+ String "/" (Js.join (piece :: pieces)))
    with (String "/" (Js.join (piece :: pieces))) in Hs.
  assert (forall l, Forall (fun seg => clean seg = true) l ->
                    Forall (fun seg => slash_free seg = true) l ->
                    Forall kept l) as Hboth.
  { intros l Hc Hf. apply Forall_forall. intros seg Hin. split.
    - now apply (proj1 (Forall_forall _ _) Hc).
    - now apply (proj1 (Forall_forall _ _) Hf). }
  destruct (clean_pieces_cases _ Hnorm) as [Hall|(front & Hfront & Hall)].
  - exists (piece :: pieces). split; [now apply Hboth|]. now left.
  - rewrite Hfront in Hs, Hfree'. apply Forall_app in Hfree' as [Hfree' _].
    exists front. split; [now apply Hboth|].
    destruct front as [|x front]; [left; now subst s|].
    right. split; [discriminate|].
    now rewrite join_snoc_empty in Hs by discriminate.
Qed.

Lemma normalizeString_clean_trailing (res segs : list string) :
  Forall (fun seg => clean seg = true) segs ->
  Posix.normalizeString false res (segs ++ [""])%list = (rev res ++ segs)%list.
Proof.
  revert res. induction segs as [|seg segs IH]; intros res Hall.
  - simpl. now rewrite app_nil_r.
  - inversion Hall as [|? ? Hseg Hrest]; subst.
    unfold clean in Hseg.
    apply andb_prop in Hseg as [[H1 H2]%andb_prop H3].
    apply negb_true_iff in H1, H2, H3.
    rewrite <- app_comm_cons. cbn [Posix.normalizeString].
    rewrite H1, H2, H3. cbn [orb].
    rewrite IH by assumption. simpl. now rewrite <- app_assoc.
Qed.

(** [normalize] leaves every normalized string as it is. *)
Lemma normalize_normalized_fixed (s : string) :
  normalized s = true -> Posix.normalize s = s.
Proof.
  intros (segs & Hkept & [->|[Hne ->]])%normalized_shape.
  - now apply normalize_strictly_normalized, strictly_normalized_of_kept.
  - rewrite normalize_absolute by reflexivity.
    unfold kept_segments. rewrite split_cons_slash.
    rewrite split_join_trailing by (try assumption; now apply kept_slash_free).
    cbn [Posix.normalizeString String.eqb orb].
    rewrite normalizeString_clean_trailing by now apply kept_clean.
    cbn [rev app].
    replace (Js.ends_with_slash (String "/" (Js.join segs +:+ "/"))) with true.
    + destruct segs; [congruence|reflexivity].
    + symmetry.
      change (Js.ends_with_slash (String "/" (Js.join segs +:+ "/")))
        with (match Js.join segs +:+ "/" with
              | "" => true
              | _ => Js.ends_with_slash (Js.join segs +:+ "/")
              end).
      rewrite ends_with_slash_app by discriminate.
      now destruct (Js.join segs +:+ "/").
Qed.

End Shapes.

(** X1: a Path built from the string of a Path is that Path again:
    normalization does nothing to a string it produced. *)
Theorem new_of_toString (s : string) (p : Path.t) :
  Path.new (Path.OfString s) = Ok p ->
  Path.new (Path.OfString (Path.toString p)) = Ok p.
Proof.
  intros Hnew. pose proof (new_normalized _ _ Hnew) as Hnorm.
  unfold Path.toString.
  rewrite new_of_string by now apply normalized_absolute.
  rewrite normalize_normalized_fixed by assumption. now destruct p.
Qed.

(** [new_of_toString] at a string with doubled slashes, dots and a
    trailing slash. *)
Lemma new_of_toString_messy :
  Path.new (Path.OfString (Path.toString (Path.mk "/a/c/"))) =
    Ok (Path.mk "/a/c/").
Proof.
  apply (new_of_toString "//a/./b/../c/"). reflexivity.
Defined.

(** ** [dirname] and [basename] on the characters of a path *)

Section Characters.

Local Abbreviation chars := list_ascii_of_string.

Lemma chars_app (a b : string) : chars (a +:+ b) = (chars a ++ chars b)%list.
Proof.
  induction a as [|x a IH]; [reflexivity|].
  rewrite append_cons. simpl. now rewrite IH.
Qed.

Lemma rev_chars_spec (s : string) (acc : list ascii) :
  Posix.rev_chars s acc = (rev (chars s) ++ acc)%list.
Proof.
  revert acc. induction s as [|x s IH]; intros acc; [reflexivity|].
  simpl. rewrite IH. now rewrite <- app_assoc.
Qed.

Lemma string_of_chars_app (a b : list ascii) :
  string_of_list_ascii (a ++ b) =
    string_of_list_ascii a +:+ string_of_list_ascii b.
Proof.
  induction a as [|x a IH]; [reflexivity|].
  simpl. now rewrite IH, append_cons.
Qed.

Lemma of_rev_chars_spec (l : list ascii) (acc : string) :
  Posix.of_rev_chars l acc = string_of_list_ascii (rev l) +:+ acc.
Proof.
  revert acc. induction l as [|x l IH]; intros acc; [reflexivity|].
  simpl. rewrite IH, string_of_chars_app, append_assoc. reflexivity.
Qed.

Lemma of_rev_chars_rev (s : string) :
  Posix.of_rev_chars (rev (chars s)) "" = s.
Proof.
  rewrite of_rev_chars_spec, rev_involutive, append_empty_r.
  apply string_of_list_ascii_of_string.
Qed.

Lemma slash_free_chars (s : string) :
  slash_free s = true -> slashless (chars s).
Proof.
  induction s as [|x s IH]; [constructor|].
  simpl. intros [Hx Hs]%andb_prop. apply negb_true_iff in Hx.
  constructor; [assumption|now apply IH].
Qed.

Lemma chars_slash_free (l : list ascii) :
  slashless l -> slash_free (string_of_list_ascii l) = true.
Proof.
  induction 1 as [|x l Hx _ IH]; [reflexivity|].
  simpl. now rewrite Hx, IH.
Qed.

Lemma slashless_rev (l : list ascii) : slashless l -> slashless (rev l).
Proof. apply Forall_rev. Qed.

Lemma drop_slashes_slashless (l : list ascii) :
  slashless l -> Posix.drop_slashes l = l.
Proof. destruct 1 as [|x l Hx _]; [reflexivity|]. simpl. now rewrite Hx. Qed.

Lemma drop_slashes_app (l rest : list ascii) :
  slashless l -> l <> [] -> Posix.drop_slashes (l ++ rest) = (l ++ rest)%list.
Proof.
  destruct 1 as [|x l Hx _]; [congruence|]. intros _. simpl. now rewrite Hx.
Qed.

Lemma drop_non_slashes_slashless (l : list ascii) :
  slashless l -> Posix.drop_non_slashes l = [].
Proof. induction 1 as [|x l Hx _ IH]; [reflexivity|]. simpl. now rewrite Hx. Qed.

Lemma drop_non_slashes_app (l rest : list ascii) :
  slashless l ->
  Posix.drop_non_slashes (l ++ "/"%char :: rest) = ("/"%char :: rest).
Proof. induction 1 as [|x l Hx _ IH]; [reflexivity|]. simpl. now rewrite Hx. Qed.

Lemma take_non_slashes_slashless (l : list ascii) :
  slashless l -> Posix.take_non_slashes l = l.
Proof.
  induction 1 as [|x l Hx _ IH]; [reflexivity|]. simpl. now rewrite Hx, IH.
Qed.

Lemma take_non_slashes_app (l rest : list ascii) :
  slashless l -> Posix.take_non_slashes (l ++ "/"%char :: rest) = l.
Proof.
  induction 1 as [|x l Hx _ IH]; [reflexivity|]. simpl. now rewrite Hx, IH.
Qed.

Lemma take_non_slashes_is_slashless (l : list ascii) :
  slashless (Posix.take_non_slashes l).
Proof.
  induction l as [|x l IH]; [constructor|].
  simpl. destruct (Js.is_slash x) eqn:Hx; now constructor.
Qed.

Lemma chars_not_nil (s : string) : s <> "" -> rev (chars s) <> [].
Proof.
  destruct s as [|x s]; [congruence|]. intros _. simpl.
  destruct (rev (chars s)); discriminate.
Qed.

(** A trailing slash changes neither the directory nor the base name. *)
Lemma dirname_trailing_slash (c0 : ascii) (rest : string) :
  Posix.dirname (String c0 (rest +:+ "/")) = Posix.dirname (String c0 rest).
Proof.
  unfold Posix.dirname. rewrite !rev_chars_spec, !app_nil_r, chars_app.
  rewrite rev_app_distr. reflexivity.
Qed.

Lemma basename_trailing_slash (s : string) :
  Posix.basename (s +:+ "/") = Posix.basename s.
Proof.
  unfold Posix.basename. rewrite !rev_chars_spec, !app_nil_r, chars_app.
  rewrite rev_app_distr. reflexivity.
Qed.

(** The directory of [dir/last] is [dir], of [/last] the root. *)
Lemma dirname_cut (c0 : ascii) (dir last : string) :
  slash_free last = true -> last <> "" -> dir <> "" ->
  Posix.dirname (String c0 (dir +:+ String "/" last)) = String c0 dir.
Proof.
  intros Hfree Hlast Hdir. unfold Posix.dirname.
  rewrite rev_chars_spec, app_nil_r, chars_app. cbn [chars].
  rewrite rev_app_distr. cbn [rev]. rewrite <- !app_assoc. cbn [app].
  rewrite drop_slashes_app
    by first [now apply chars_not_nil
             |now apply slashless_rev, slash_free_chars].
  rewrite drop_non_slashes_app by now apply slashless_rev, slash_free_chars.
  pose proof (chars_not_nil _ Hdir) as Hne.
  destruct (rev (chars dir)) as [|x l] eqn:E; [congruence|].
  rewrite <- E. now rewrite of_rev_chars_rev.
Qed.

Lemma dirname_top (last : string) :
  slash_free last = true -> Posix.dirname (String "/" last) = "/".
Proof.
  intros Hfree. unfold Posix.dirname.
  rewrite rev_chars_spec, app_nil_r.
  rewrite drop_slashes_slashless by now apply slashless_rev, slash_free_chars.
  now rewrite drop_non_slashes_slashless
    by now apply slashless_rev, slash_free_chars.
Qed.

Lemma basename_cut (front last : string) :
  slash_free last = true -> last <> "" ->
  Posix.basename (front +:+ String "/" last) = last.
Proof.
  intros Hfree Hlast. unfold Posix.basename.
  rewrite rev_chars_spec, app_nil_r, chars_app. cbn [chars].
  rewrite rev_app_distr. cbn [rev]. rewrite <- !app_assoc. cbn [app].
  rewrite drop_slashes_app
    by first [now apply chars_not_nil
             |now apply slashless_rev, slash_free_chars].
  rewrite take_non_slashes_app by now apply slashless_rev, slash_free_chars.
  apply of_rev_chars_rev.
Qed.

(** The base name of any string holds no slash. *)
Lemma basename_slash_free (s : string) : slash_free (Posix.basename s) = true.
Proof.
  unfold Posix.basename. rewrite of_rev_chars_spec, append_empty_r.
  apply chars_slash_free, slashless_rev, take_non_slashes_is_slashless.
Qed.

End Characters.

(** ** [join], [parent] and [basename] on segments *)

Section Segments.

Lemma normalizeString_skip_empty (above : bool) (res segs : list string) :
  Posix.normalizeString above res ("" :: segs) =
    Posix.normalizeString above res segs.
Proof. reflexivity. Qed.

Lemma kept_head_not_slash (seg : string) (rest : list string) :
  kept seg ->
  Js.starts_with_slash (Js.join (seg :: rest)) = false /\
  Js.truthy (Js.join (seg :: rest)) = true.
Proof.
  intros [Hclean Hfree]. destruct seg as [|c seg]; [discriminate|].
  rewrite join_cons_char. simpl in Hfree.
  apply andb_prop in Hfree as [Hc _]. apply negb_true_iff in Hc.
  now split.
Qed.

(** Joining kept segments onto a strictly normalized path appends them. *)
Lemma join_kept (bs rest : list string) :
  Forall kept bs -> Forall kept rest -> rest <> [] ->
  Path.join (Path.mk (String "/" (Js.join bs))) [Js.join rest] =
    Ok (Path.mk (String "/" (Js.join (bs ++ rest)))).
Proof.
  intros Hbs Hrest Hne. destruct rest as [|r rest]; [congruence|].
  unfold Path.join. cbn [Path.string].
  change (Js.join [Js.join (r :: rest)]) with (Js.join (r :: rest)).
  inversion Hrest as [|? ? Hr _]; subst.
  destruct (kept_head_not_slash r rest Hr) as [-> ->].
  change (String "/" (Js.join bs) +:+ "/" +:+ Js.join (r :: rest))
    with (String "/" (Js.join bs +:+ String "/" (Js.join (r :: rest)))).
  rewrite new_of_string by reflexivity. do 2 f_equal.
  destruct bs as [|b bs].
  - change (Js.join [] +:+ String "/" (Js.join (r :: rest)))
      with (String "/" (Js.join (r :: rest))).
    change ([] ++ r :: rest)%list with (r :: rest).
    rewrite normalize_absolute by reflexivity.
    unfold kept_segments. rewrite !split_cons_slash.
    rewrite split_join by (try discriminate; now apply kept_slash_free).
    rewrite !normalizeString_skip_empty.
    rewrite normalizeString_clean by now apply kept_clean.
    cbn [rev app].
    replace (Js.ends_with_slash (String "/" (String "/" (Js.join (r :: rest)))))
      with false; [now rewrite andb_false_r|].
    pose proof (ends_with_slash_join _ Hrest) as Hend.
    pose proof (truthy_join _ Hrest) as Htruthy.
    simpl. destruct (Js.join (r :: rest)); [discriminate|now symmetry].
  - rewrite <- join_app by discriminate.
    apply normalize_strictly_normalized, strictly_normalized_of_kept.
    now apply Forall_app.
Qed.

Lemma dirname_snoc (init : list string) (last : string) :
  Forall kept init -> kept last ->
  Posix.dirname (String "/" (Js.join (init ++ [last]))) =
    String "/" (Js.join init).
Proof.
  intros Hinit [Hclean Hfree].
  destruct init as [|x init].
  - simpl. now apply dirname_top.
  - rewrite join_app by discriminate. change (Js.join [last]) with last.
    apply dirname_cut; try assumption.
    + now destruct last.
    + pose proof (truthy_join _ Hinit) as Ht.
      now destruct (Js.join (x :: init)).
Qed.

Lemma basename_snoc (init : list string) (last : string) :
  Forall kept init -> kept last ->
  Posix.basename (String "/" (Js.join (init ++ [last]))) = last.
Proof.
  intros Hinit [Hclean Hfree].
  assert (last <> "") as Hlast by now destruct last.
  destruct init as [|x init].
  - simpl. now apply (basename_cut "" last).
  - rewrite join_app by discriminate. change (Js.join [last]) with last.
    now apply (basename_cut (String "/" (Js.join (x :: init))) last).
Qed.

Lemma parent_of_kept (segs : list string) :
  Forall kept segs ->
  Path.parent (Path.mk (String "/" (Js.join segs))) =
    Ok (Path.mk (String "/" (Js.join (removelast segs)))).
Proof.
  intros Hkept. unfold Path.parent. cbn [Path.string].
  destruct segs as [|x segs] using rev_ind; [reflexivity|].
  apply Forall_app in Hkept as [Hinit Hlast].
  apply Forall_cons in Hlast as [Hlast _].
  rewrite removelast_last, dirname_snoc by assumption.
  rewrite new_of_string by reflexivity.
  now rewrite normalize_strictly_normalized
    by now apply strictly_normalized_of_kept.
Qed.

Lemma segments_skip_empty (pieces : list string) :
  List.filter (fun seg => negb (seg =? "")) ("" :: pieces) =
    List.filter (fun seg => negb (seg =? "")) pieces.
Proof. reflexivity. Qed.

(** The segments of a normalized string, with or without the trailing
    slash. *)
Lemma segments_of_shape (segs : list string) :
  Forall kept segs ->
  segments (Path.mk (String "/" (Js.join segs))) = segs /\
  (segs <> [] ->
   segments (Path.mk (String "/" (Js.join segs +:+ "/"))) = segs).
Proof.
  intros Hkept. unfold segments. cbn [Path.string].
  rewrite !split_cons_slash, !segments_skip_empty. split.
  - destruct segs as [|x segs]; [reflexivity|].
    rewrite split_join by (try discriminate; now apply kept_slash_free).
    now apply segments_of_kept.
  - intros Hne.
    rewrite split_join_trailing by (try assumption; now apply kept_slash_free).
    rewrite List.filter_app.
    rewrite segments_of_kept by assumption. apply app_nil_r.
Qed.

End Segments.

(** X2: what [join] appends, [parent] and [basename] take apart: for a
    path without trailing slash and a segment that is not empty,
    ["."] or [".."] and holds no slash, [p.join(seg)] has parent [p] and
    base name [seg]. *)
Theorem parent_and_basename_of_join (p : Path.t) (seg : string) :
  strictly_normalized (Path.string p) = true ->
  clean seg = true -> slash_free seg = true ->
  exists q,
    Path.join p [seg] = Ok q /\
    Path.parent q = Ok p /\
    Path.basename q = seg.
Proof.
  destruct p as [s]. cbn [Path.string].
  intros (bs & Hbs & ->)%strictly_normalized_segs Hclean Hfree.
  assert (kept seg) as Hseg by now split.
  exists (Path.mk (String "/" (Js.join (bs ++ [seg])))). repeat split.
  - apply (join_kept bs [seg]); [assumption|now constructor|discriminate].
  - rewrite parent_of_kept by (apply Forall_app; split; now repeat constructor).
    now rewrite removelast_last.
  - unfold Path.basename. cbn [Path.string]. now apply basename_snoc.
Qed.

(** [parent_and_basename_of_join] at [/usr/local] and [bin]. *)
Lemma parent_and_basename_of_join_usr_local_bin :
  exists q,
    Path.join (Path.mk "/usr/local") ["bin"] = Ok q /\
    Path.parent q = Ok (Path.mk "/usr/local") /\
    Path.basename q = "bin".
Proof.
  apply (parent_and_basename_of_join (Path.mk "/usr/local") "bin");
    reflexivity.
Defined.

(** X3: a path without trailing slash, other than the root, is its
    parent joined with its base name. *)
Theorem join_parent_basename (p : Path.t) :
  strictly_normalized (Path.string p) = true ->
  Path.string p <> "/" ->
  exists dir,
    Path.parent p = Ok dir /\
    Path.join dir [Path.basename p] = Ok p.
Proof.
  destruct p as [s]. cbn [Path.string].
  intros (segs & Hkept & ->)%strictly_normalized_segs Hroot.
  destruct segs as [|last init _] using rev_ind; [now destruct Hroot|].
  apply Forall_app in Hkept as [Hinit Hlast].
  pose proof Hlast as Hlast'. apply Forall_cons in Hlast' as [Hk _].
  exists (Path.mk (String "/" (Js.join init))). split.
  - rewrite parent_of_kept by now apply Forall_app.
    now rewrite removelast_last.
  - unfold Path.basename. cbn [Path.string].
    rewrite basename_snoc by assumption.
    now apply (join_kept init [last]).
Qed.

(** [join_parent_basename] at [/usr/local/bin]. *)
Lemma join_parent_basename_usr_local_bin :
  exists dir,
    Path.parent (Path.mk "/usr/local/bin") = Ok dir /\
    Path.join dir [Path.basename (Path.mk "/usr/local/bin")] =
      Ok (Path.mk "/usr/local/bin").
Proof.
  apply (join_parent_basename (Path.mk "/usr/local/bin"));
    [reflexivity|discriminate].
Defined.

(** X4: [parent] drops the last segment, and a trailing slash with it:
    the parent of a Path has no trailing slash and the segments of the
    Path but the last; the parent of the root is the root. *)
Theorem parent_drops_last_segment (p : Path.t) :
  normalized (Path.string p) = true ->
  exists q,
    Path.parent p = Ok q /\
    strictly_normalized (Path.string q) = true /\
    segments q = removelast (segments p).
Proof.
  destruct p as [s]. cbn [Path.string].
  intros (segs & Hkept & Hshape)%normalized_shape.
  assert (Forall kept (removelast segs)) as Hinit.
  { destruct segs as [|last init _] using rev_ind; [constructor|].
    rewrite removelast_last. now apply Forall_app in Hkept as [? _]. }
  exists (Path.mk (String "/" (Js.join (removelast segs)))).
  destruct (segments_of_shape _ Hkept) as [Hsegs Hsegs'].
  destruct (segments_of_shape _ Hinit) as [Hsegsq _].
  rewrite Hsegsq. cbn [Path.string].
  rewrite (strictly_normalized_of_kept _ Hinit).
  destruct Hshape as [->|[Hne ->]].
  - rewrite Hsegs. split; [|now split]. now apply parent_of_kept.
  - rewrite (Hsegs' Hne). split; [|now split].
    unfold Path.parent. cbn [Path.string].
    rewrite dirname_trailing_slash.
    now apply parent_of_kept.
Qed.

(** [parent_drops_last_segment] at [/a/b/], with its trailing slash. *)
Lemma parent_drops_last_segment_trailing :
  exists q,
    Path.parent (Path.mk "/a/b/") = Ok q /\
    strictly_normalized (Path.string q) = true /\
    segments q = removelast (segments (Path.mk "/a/b/")).
Proof.
  apply (parent_drops_last_segment (Path.mk "/a/b/")). reflexivity.
Defined.

(** ** [relative] below a base other than the root *)

Lemma relative_below (bs rest : list string) :
  bs <> [] -> Forall kept bs -> Forall kept rest ->
  Path.relative (Path.mk (String "/" (Js.join (bs ++ rest))))
    (Path.mk (String "/" (Js.join bs))) = Ok (Js.join rest).
Proof.
  intros Hne Hbs Hrest.
  unfold Path.relative, Js.startsWith. cbn [Path.string].
  rewrite !split_cons_slash.
  assert (Forall kept (bs ++ rest)) as Hall by now apply Forall_app.
  assert ((bs ++ rest)%list <> []) as Hne' by now destruct bs.
  rewrite (split_join (bs ++ rest) Hne' (kept_slash_free _ Hall)).
  rewrite (split_join bs Hne (kept_slash_free _ Hbs)).
  assert (Js.slice ("/" :: "" :: bs ++ rest)%list
            (length ("/" :: "" :: bs)) = rest) as ->.
  { unfold Js.slice. cbn [length skipn].
    change (skipn (length bs) (bs ++ rest)%list)
      with (drop (length bs) (bs ++ rest)%list).
    apply drop_app_length. }
  destruct rest as [|r rest].
  - rewrite app_nil_r.
    rewrite <- (append_empty_r (String "/" (Js.join bs))) at 2.
    now rewrite prefix_append.
  - rewrite join_app by (try assumption; discriminate).
    change (String "/" (Js.join bs +:+ String "/" (Js.join (r :: rest))))
      with (String "/" (Js.join bs) +:+ String "/" (Js.join (r :: rest))).
    now rewrite prefix_append.
Qed.

(** X5: below a base other than the root, [relative] undoes [join]:
    for a base without trailing slash and segments that are not empty,
    ["."] or [".."], the relative path of [base.join(segments)] to
    [base] is the segments joined by slashes. *)
Theorem relative_of_join (base : Path.t) (rest : list string) :
  strictly_normalized (Path.string base) = true ->
  Path.string base <> "/" ->
  Forall kept rest ->
  exists q,
    Path.join base [Js.join rest] = Ok q /\
    Path.relative q base = Ok (Js.join rest).
Proof.
  destruct base as [s]. cbn [Path.string].
  intros (bs & Hbs & ->)%strictly_normalized_segs Hroot Hrest.
  assert (bs <> []) as Hne by (intros ->; now destruct Hroot).
  destruct rest as [|r rest].
  - exists (Path.mk (String "/" (Js.join bs))). split; [reflexivity|].
    rewrite <- (app_nil_r bs) at 1. now apply relative_below.
  - exists (Path.mk (String "/" (Js.join (bs ++ r :: rest)))). split.
    + now apply join_kept.
    + now apply relative_below.
Qed.

(** [relative_of_join] at the base [/opt/pkg] and the segments [v1],
    [bin]. *)
Lemma relative_of_join_opt_pkg :
  exists q,
    Path.join (Path.mk "/opt/pkg") [Js.join ["v1"; "bin"]] = Ok q /\
    Path.relative q (Path.mk "/opt/pkg") = Ok (Js.join ["v1"; "bin"]).
Proof.
  apply (relative_of_join (Path.mk "/opt/pkg") ["v1"; "bin"]).
  - reflexivity.
  - discriminate.
  - repeat constructor.
Defined.

(** [join_relative_below_root] at [/foo] and [/foo/bar/baz]. *)
Lemma join_relative_below_root_foo :
  exists rel,
    Path.relative (Path.mk "/foo/bar/baz") (Path.mk "/foo") = Ok rel /\
    Path.join (Path.mk "/foo") [rel] = Ok (Path.mk "/foo/bar/baz").
Proof.
  apply (join_relative_below_root (Path.mk "/foo") (Path.mk "/foo/bar/baz"));
    [reflexivity|reflexivity|discriminate|reflexivity].
Defined.

(** ** The queries *)

Section Queries.

Variable fs : FS.

Lemma isFile_spec (p : Path.t) :
  Path.isFile p fs =
    match Deno.follow Deno.max_links fs (Path.string p) with
    | Ok (_, e) => (fs, Ok (if Deno.isFile (Deno.info e) then Some p else None))
    | Throw NotFound => (fs, Ok None)
    | Throw err => (fs, Throw err)
    end.
Proof.
  unfold Path.isFile, Deno.statSync. unfold_io.
  destruct (Deno.follow _ _ _) as [[q e]|err]; [reflexivity|].
  now destruct err.
Qed.

Lemma isDirectory_spec (p : Path.t) :
  Path.isDirectory p fs =
    match Deno.follow Deno.max_links fs (Path.string p) with
    | Ok (_, e) => (fs, Ok (Deno.isDirectory (Deno.info e)))
    | Throw NotFound => (fs, Ok false)
    | Throw err => (fs, Throw err)
    end.
Proof.
  unfold Path.isDirectory, Deno.statSync. unfold_io.
  destruct (Deno.follow _ _ _) as [[q e]|err]; [reflexivity|].
  now destruct err.
Qed.



Lemma readlink_spec (p : Path.t) :
  Path.readlink p fs =
    match fs !! Path.string p with
    | Some (Symlink target) =>
        (fs, result_bind (Path.parent p) (fun dir => Path.join dir [target]))
    | Some _ => (fs, Ok p)
    | None => (fs, Throw NotFound)
    end.
Proof.
  unfold Path.readlink, Deno.readLinkSync. unfold_io.
  destruct (fs !! Path.string p) as [[| |target]|]; try reflexivity.
  destruct (result_bind _ _) as [q|err] eqn:E; [reflexivity|].
  unfold result_bind, Path.parent, Path.join, Path.new in E.
  repeat match type of E with
         | context [if ?b then _ else _] => destruct b
         | context [match ?r with Ok _ => _ | Throw _ => _ end] =>
             destruct r eqn:?
         end; try discriminate; injection E as <-; reflexivity.
Qed.

(** The final component of a link chain is never a link. *)
Lemma follow_ends_not_link (links : nat) (path q : string) (e : entry) :
  Deno.follow links fs path = Ok (q, e) ->
  fs !! q = Some e /\ Deno.isSymlink (Deno.info e) = false.
Proof.
  revert path. induction links as [|links IH]; intros path; simpl;
    destruct (fs !! path) as [[| |target]|] eqn:E; try discriminate;
    try (intros [= <- <-]; now split).
  apply IH.
Qed.

End Queries.



(** X8: [isFile] and [isDirectory] exclude each other and each implies
    [exists]: when [isFile] gives a Path it is the Path asked, [exists]
    says yes and [isDirectory] says no; when [isDirectory] says yes,
    [exists] says yes and [isFile] gives nothing. *)
Theorem file_or_directory (p : Path.t) (fs : FS) :
  (forall q, Path.isFile p fs = (fs, Ok (Some q)) ->
     q = p /\
     Path.exists_ p fs = (fs, Ok true) /\
     Path.isDirectory p fs = (fs, Ok false)) /\
  (Path.isDirectory p fs = (fs, Ok true) ->
     Path.exists_ p fs = (fs, Ok true) /\
     Path.isFile p fs = (fs, Ok None)).
Proof.
  rewrite isFile_spec, isDirectory_spec, exists_spec.
  split.
  - intros q.
    destruct (Deno.follow _ _ _) as [[r [| |target]]|[]]; simpl;
      intros H; try discriminate.
    injection H as <-. now repeat split.
  - destruct (Deno.follow _ _ _) as [[r [| |target]]|[]]; simpl;
      intros H; try discriminate.
    now split.
Qed.

(** [file_or_directory] at the file [/a]. *)
Lemma file_or_directory_at_file :
  let fs : FS := {[ "/" := Directory; "/a" := File "x" ]} in
  Path.exists_ (Path.mk "/a") fs = (fs, Ok true) /\
  Path.isDirectory (Path.mk "/a") fs = (fs, Ok false).
Proof.
  intros fs.
  exact (proj2 (proj1 (file_or_directory (Path.mk "/a") fs)
                  (Path.mk "/a") eq_refl)).
Defined.

(** X9: [readlink] on an entry that is not a symlink returns the Path
    itself and changes nothing. *)
Theorem readlink_not_a_link (p : Path.t) (e : entry) (fs : FS) :
  fs !! Path.string p = Some e ->
  (forall target, e <> Symlink target) ->
  Path.readlink p fs = (fs, Ok p).
Proof.
  intros He Hne. rewrite readlink_spec, He.
  destruct e; try reflexivity. now destruct (Hne target).
Qed.

(** [readlink_not_a_link] at the directory [/d]. *)
Lemma readlink_not_a_link_directory :
  Path.readlink (Path.mk "/d") {[ "/" := Directory; "/d" := Directory ]} =
    ({[ "/" := Directory; "/d" := Directory ]}, Ok (Path.mk "/d")).
Proof.
  apply (readlink_not_a_link (Path.mk "/d") Directory); [reflexivity|].
  discriminate.
Defined.



(** ** [rm] where an entry exists *)

Section Remove.

Variable fs : FS.

Lemma is_empty_dir_false (dir q : string) (e : entry) :
  fs !! q = Some e -> Deno.inside dir q = true ->
  Deno.is_empty_dir fs dir = false.
Proof.
  intros Hq Hin. unfold Deno.is_empty_dir, Deno.children.
  apply bool_decide_eq_false. intros Hempty.
  assert (filter (fun kv : string * entry => Deno.inside dir kv.1 = true) fs
            !! q = Some e) as Hlook
    by (apply map_lookup_filter_Some; now split).
  rewrite Hempty in Hlook. now rewrite lookup_empty in Hlook.
Qed.

Lemma is_empty_dir_true (dir : string) :
  (forall q, Deno.inside dir q = true -> fs !! q = None) ->
  Deno.is_empty_dir fs dir = true.
Proof.
  intros Hnone. unfold Deno.is_empty_dir, Deno.children.
  apply bool_decide_eq_true. apply map_empty. intros q.
  apply map_lookup_filter_None.
  destruct (fs !! q) as [e|] eqn:E; [right|now left].
  intros e' [= <-]. cbn. intros Hin. apply Hnone in Hin. congruence.
Qed.


Lemma lookup_inside_removed (dir q : string) :
  Deno.inside dir q = true ->
  delete dir (Deno.without_children fs dir) !! q = None.
Proof.
  intros Hin. apply lookup_delete_None. right.
  apply map_lookup_filter_None.
  destruct (fs !! q) as [e|] eqn:E; [right|now left].
  intros e' _. cbn. congruence.
Qed.

Lemma exists_directory (p : Path.t) :
  fs !! Path.string p = Some Directory -> Path.exists_ p fs = (fs, Ok true).
Proof.
  intros H. rewrite exists_spec.
  now rewrite (follow_not_link fs _ _ Directory H).
Qed.

End Remove.

(** X11: [rm] of an entry that is not a directory and that [exists]
    sees deletes that entry and nothing else; afterwards [exists] says
    no and a second [rm] does nothing. *)
Theorem rm_removes_the_entry (p : Path.t) (e : entry) (recursive : bool)
    (fs : FS) :
  fs !! Path.string p = Some e ->
  e <> Directory ->
  Path.exists_ p fs = (fs, Ok true) ->
  let fs' := delete (Path.string p) fs in
  Path.rm p recursive fs = (fs', Ok tt) /\
  (forall q, q <> Path.string p -> fs' !! q = fs !! q) /\
  Path.exists_ p fs' = (fs', Ok false) /\
  Path.rm p recursive fs' = (fs', Ok tt).
Proof.
  intros He Hne Hex fs'. repeat split.
  - rewrite (rm_exists _ _ _ Hex).
    now apply removeSync_not_directory with (e := e).
  - intros q Hq. unfold fs'. now rewrite lookup_delete_ne.
  - apply exists_absent. apply lookup_delete_eq.
  - apply rm_not_exists, exists_absent. apply lookup_delete_eq.
Qed.

(** [rm_removes_the_entry] at the link [/l] to the file [/a]: the link
    goes, the file stays. *)
Lemma rm_removes_the_entry_link :
  let fs : FS := {[ "/" := Directory; "/a" := File "x"; "/l" := Symlink "a" ]} in
  Path.rm (Path.mk "/l") false fs = (delete "/l" fs, Ok tt) /\
  delete "/l" fs !! "/a" = fs !! "/a".
Proof.
  intros fs.
  destruct (rm_removes_the_entry (Path.mk "/l") (Symlink "a") false fs
              eq_refl ltac:(discriminate) eq_refl) as (Hrm & Hother & _).
  split; [exact Hrm|]. apply Hother. discriminate.
Defined.

(** X12: [rm] of a directory.  Without [recursive] it throws and leaves
    everything in place when an entry lies below the directory, and
    deletes the directory alone when none does; with [recursive] it
    deletes the directory and every entry below it, and no other. *)
Theorem rm_directory (p : Path.t) (fs : FS) :
  fs !! Path.string p = Some Directory ->
  (forall q e, fs !! q = Some e -> Deno.inside (Path.string p) q = true ->
     Path.rm p false fs = (fs, Throw (OsError "ENOTEMPTY"))) /\
  ((forall q, Deno.inside (Path.string p) q = true -> fs !! q = None) ->
     Path.rm p false fs = (delete (Path.string p) fs, Ok tt)) /\
  (exists fs',
     Path.rm p true fs = (fs', Ok tt) /\
     fs' !! Path.string p = None /\
     (forall q, Deno.inside (Path.string p) q = true -> fs' !! q = None) /\
     (forall q, q <> Path.string p ->
                Deno.inside (Path.string p) q = false -> fs' !! q = fs !! q)).
Proof.
  intros Hdir. pose proof (exists_directory fs p Hdir) as Hex.
  split; [|split].
  - intros q e Hq Hin. rewrite (rm_exists _ _ _ Hex).
    unfold Deno.removeSync. rewrite Hdir.
    now rewrite (is_empty_dir_false fs _ q e).
  - intros Hempty. rewrite (rm_exists _ _ _ Hex).
    unfold Deno.removeSync. rewrite Hdir.
    now rewrite is_empty_dir_true.
  - eexists. split.
    + rewrite (rm_exists _ _ _ Hex). unfold Deno.removeSync.
      rewrite Hdir. reflexivity.
    + split; [apply lookup_delete_eq|]. split.
      * intros q. apply lookup_inside_removed.
      * intros q. apply lookup_after_recursive_remove.
Qed.

(** [rm_directory] at the directory [/d], which holds [/d/k]. *)
Lemma rm_directory_not_empty :
  let fs : FS :=
    {[ "/" := Directory; "/d" := Directory; "/d/k" := File "y" ]} in
  Path.rm (Path.mk "/d") false fs = (fs, Throw (OsError "ENOTEMPTY")).
Proof.
  intros fs.
  apply (proj1 (rm_directory (Path.mk "/d") fs eq_refl) "/d/k" (File "y"));
    reflexivity.
Defined.

(** ** [mkdir] *)



(** ** [write] on a free path *)



(** ** [extname] *)

Section Extname.

Lemma strip_prefix_app (pre w : string) :
  Js.strip_prefix pre (pre +:+ w) = Some w.
Proof.
  induction pre as [|a pre IH]; [now destruct w|].
  rewrite append_cons. simpl. now rewrite Ascii.eqb_refl.
Qed.

Lemma strip_prefix_Some (pre s w : string) :
  Js.strip_prefix pre s = Some w -> s = pre +:+ w.
Proof.
  revert s. induction pre as [|a pre IH]; intros s.
  - destruct s; now intros [= <-].
  - destruct s as [|b s]; [discriminate|]. simpl.
    destruct (Ascii.eqb a b) eqn:E; [|discriminate].
    apply Ascii.eqb_eq in E as <-. intros H%IH.
    now rewrite append_cons, H.
Qed.

Lemma match_tar_unfold (input : string) :
  Path.match_tar input =
    if Path.tar_here input then Some input
    else match input with
         | EmptyString => None
         | String _ rest => Path.match_tar rest
         end.
Proof. now destruct input. Qed.

(** No match starts before the last [.tar.]: the rest would hold a dot. *)
Lemma tar_here_too_early (c : ascii) (stem w : string) :
  Path.tar_here (String c (stem +:+ ".tar." +:+ w)) = false.
Proof.
  unfold Path.tar_here.
  destruct (Js.strip_prefix _ _) as [w'|] eqn:E; [|reflexivity].
  apply strip_prefix_Some in E. apply (f_equal list_ascii_of_string) in E.
  rewrite chars_app in E. cbn [list_ascii_of_string app] in E.
  rewrite !chars_app in E. cbn [list_ascii_of_string] in E.
  assert (list_ascii_of_string w' =
            (drop 5 (c :: list_ascii_of_string stem ++
                       ["."; "t"; "a"; "r"]%char)
             ++ "."%char :: list_ascii_of_string w)%list) as ->.
  { rewrite <- drop_app_le by (cbn; rewrite length_app; cbn; lia).
    change (list_ascii_of_string w')
      with (drop 5 (["."; "t"; "a"; "r"; "."]%char ++ list_ascii_of_string w')).
    cbn [app]. rewrite <- E. f_equal. cbn [app].
    rewrite <- app_assoc. reflexivity. }
  rewrite forallb_app. cbn [forallb]. rewrite andb_false_r.
  change (Js.is_word ".") with false. cbn [andb].
  now rewrite andb_false_r.
Qed.

Lemma match_tar_found (stem w : string) :
  w <> "" ->
  forallb Js.is_word (list_ascii_of_string w) = true ->
  Path.match_tar (stem +:+ ".tar." +:+ w) = Some (".tar." +:+ w).
Proof.
  intros Hw Hword. induction stem as [|c stem IH].
  - change ("" +:+ ".tar." +:+ w) with (".tar." +:+ w).
    rewrite match_tar_unfold. unfold Path.tar_here.
    rewrite strip_prefix_app, Hword. now destruct w.
  - rewrite append_cons, match_tar_unfold.
    now rewrite tar_here_too_early.
Qed.

End Extname.

(** X15: for an input that ends with [.tar.] and then one or more
    letters, digits or underscores, [extname] is that whole compound
    suffix, whatever comes before it. *)
Theorem extname_of_tar_archive (stem w : string) :
  w <> "" ->
  forallb Js.is_word (list_ascii_of_string w) = true ->
  Path.static_extname (stem +:+ ".tar." +:+ w) = ".tar." +:+ w.
Proof.
  intros Hw Hword. unfold Path.static_extname.
  now rewrite match_tar_found.
Qed.

(** [extname_of_tar_archive] at a URL that ends with [.tar.xz]. *)
Lemma extname_of_tar_archive_url :
  Path.static_extname ("https://example.org/v1.2/pkg-1.2" +:+ ".tar." +:+ "xz")
  = ".tar." +:+ "xz".
Proof.
  apply extname_of_tar_archive; [discriminate|reflexivity].
Defined.

Example extname_examples :
  map Path.static_extname
    ["/a/file.txt"; "/a/file"; "/a/.bashrc"; "/a.b/c"; "/a/x.tar.gz";
     "/a/x.tar.g-z"; "/a/x.tar."]
  = [".txt"; ""; ""; ""; ".tar.gz"; ".g-z"; "."].
Proof. reflexivity. Qed.

(** ** [readYAMLFrontMatter] *)

Section FrontMatterLemmas.

Context {Yaml : Type}.
Variable parseYaml : string -> result Yaml.

Lemma skip_to_dashes_none (lines : list string) :
  Forall (fun line => Path.ends_with_dashes line = false) lines ->
  Path.skip_to_dashes lines = None.
Proof.
  induction 1 as [|line lines Hline _ IH]; [reflexivity|].
  simpl. now rewrite Hline.
Qed.

Lemma skip_to_dashes_found (skipped : list string) (opening : string)
    (rest : list string) :
  Forall (fun line => Path.ends_with_dashes line = false) skipped ->
  Path.ends_with_dashes opening = true ->
  Path.skip_to_dashes (skipped ++ opening :: rest)%list = Some rest.
Proof.
  intros Hskipped Hopen.
  induction Hskipped as [|line lines Hline _ IH]; simpl.
  - now rewrite Hopen.
  - now rewrite Hline.
Qed.

Lemma collect_closed (body : list string) (closing : string)
    (rest : list string) (yaml : string) :
  Forall (fun line => Path.starts_with_dashes line = false) body ->
  Path.starts_with_dashes closing = true ->
  Path.collect (body ++ closing :: rest)%list yaml = yaml +:+ unlines body.
Proof.
  intros Hbody Hclose. revert yaml.
  induction Hbody as [|line lines Hline _ IH]; intros yaml; simpl.
  - now rewrite Hclose, append_empty_r.
  - rewrite Hline, IH. now rewrite !append_assoc.
Qed.

Lemma collect_open_ended (body : list string) (yaml : string) :
  Forall (fun line => Path.starts_with_dashes line = false) body ->
  Path.collect body yaml =
    yaml +:+ unlines body +:+ "undefined" +:+ String Js.newline "".
Proof.
  intros Hbody. revert yaml.
  induction Hbody as [|line lines Hline _ IH]; intros yaml; simpl.
  - reflexivity.
  - rewrite Hline, IH. now rewrite !append_assoc.
Qed.

Lemma readYAMLFrontMatter_spec (this : Path.t) (fs : FS) (txt : string) :
  Path.read this fs = (fs, Ok txt) ->
  Path.readYAMLFrontMatter parseYaml this fs =
    (fs, match Js.split_on Js.newline txt with
         | [] => Throw (Thrown "no-front-matter")
         | _ :: lines =>
             match Path.skip_to_dashes lines with
             | None | Some [] => Throw (Thrown "no-front-matter")
             | Some rest => parseYaml (Path.collect rest "")
             end
         end).
Proof.
  intros Hread. unfold Path.readYAMLFrontMatter. unfold_io. rewrite Hread.
  destruct (Js.split_on Js.newline txt) as [|first lines]; [reflexivity|].
  now destruct (Path.skip_to_dashes lines) as [[|]|].
Qed.

End FrontMatterLemmas.

(** X16: [readYAMLFrontMatter] throws ["no-front-matter"] when no line
    after the first one ends with three dashes (and white space), and
    also when the only such line is the last line of the file.  The
    first line is never looked at: dashes there do not count. *)
Theorem front_matter_missing {Yaml : Type} (parseYaml : string -> result Yaml)
    (this : Path.t) (fs : FS) (txt first : string) (lines : list string) :
  Path.read this fs = (fs, Ok txt) ->
  Js.split_on Js.newline txt = first :: lines ->
  (Forall (fun line => Path.ends_with_dashes line = false) lines \/
   exists skipped opening,
     lines = (skipped ++ [opening])%list /\
     Forall (fun line => Path.ends_with_dashes line = false) skipped) ->
  Path.readYAMLFrontMatter parseYaml this fs =
    (fs, Throw (Thrown "no-front-matter")).
Proof.
  intros Hread Hsplit Hlines.
  rewrite (readYAMLFrontMatter_spec _ _ _ _ Hread), Hsplit.
  destruct Hlines as [Hnone|(skipped & opening & -> & Hskipped)].
  - now rewrite skip_to_dashes_none.
  - destruct (Path.ends_with_dashes opening) eqn:Hopen.
    + now rewrite skip_to_dashes_found.
    + rewrite skip_to_dashes_none; [reflexivity|].
      apply Forall_app. split; [assumption|now repeat constructor].
Qed.

(** [front_matter_missing] at a file whose first line is the only line
    of dashes. *)
Lemma front_matter_missing_dashes_on_top :
  let txt := "---" +:+ String Js.newline "" +:+ "a: 1" in
  let fs : FS := {[ "/" := Directory; "/f" := File txt ]} in
  Path.readYAMLFrontMatter (fun yaml => Ok yaml) (Path.mk "/f") fs =
    (fs, Throw (Thrown "no-front-matter")).
Proof.
  intros txt fs.
  apply (front_matter_missing (fun yaml => Ok yaml) (Path.mk "/f") fs txt
           "---" ["a: 1"]); [reflexivity|reflexivity|].
  left. now repeat constructor.
Defined.

(** X17: when, after the first line, a line ends with three dashes, and
    a later line starts with three dashes, the parser receives exactly
    the lines between the two, each ended by a line feed, and its
    result is the result; the lines before the first of the two and
    after the second play no part. *)
Theorem front_matter_between_dashes {Yaml : Type}
    (parseYaml : string -> result Yaml) (this : Path.t) (fs : FS)
    (txt first opening closing : string) (skipped body rest : list string) :
  Path.read this fs = (fs, Ok txt) ->
  Js.split_on Js.newline txt =
    (first :: skipped ++ opening :: body ++ closing :: rest)%list ->
  Forall (fun line => Path.ends_with_dashes line = false) skipped ->
  Path.ends_with_dashes opening = true ->
  Forall (fun line => Path.starts_with_dashes line = false) body ->
  Path.starts_with_dashes closing = true ->
  Path.readYAMLFrontMatter parseYaml this fs = (fs, parseYaml (unlines body)).
Proof.
  intros Hread Hsplit Hskipped Hopen Hbody Hclose.
  rewrite (readYAMLFrontMatter_spec _ _ _ _ Hread), Hsplit.
  rewrite skip_to_dashes_found by assumption.
  rewrite collect_closed by assumption.
  destruct (body ++ closing :: rest)%list eqn:E; [|reflexivity].
  now destruct body.
Qed.

(** [front_matter_between_dashes] at a script with its front matter in
    a comment below the first line. *)
Lemma front_matter_between_dashes_script :
  let nl := String Js.newline "" in
  let txt := "#!/usr/bin/env tea" +:+ nl +:+ "/*---" +:+ nl +:+
             "a: 1" +:+ nl +:+ "b: 2" +:+ nl +:+ "---*/" +:+ nl +:+ "code" in
  let fs : FS := {[ "/" := Directory; "/f" := File txt ]} in
  Path.readYAMLFrontMatter (fun yaml => Ok yaml) (Path.mk "/f") fs =
    (fs, Ok (unlines ["a: 1"; "b: 2"])).
Proof.
  intros nl txt fs.
  apply (front_matter_between_dashes (fun yaml => Ok yaml) (Path.mk "/f") fs
           txt "#!/usr/bin/env tea" "/*---" "---*/" [] ["a: 1"; "b: 2"]
           ["code"]);
    try reflexivity; now repeat constructor.
Defined.

(** X18: when no line after the opening one starts with three dashes,
    the parser receives the lines that follow it, each ended by a line
    feed, and then the text ["undefined"] and a line feed: the loop
    appends the missing line before it stops. *)
Theorem front_matter_unterminated {Yaml : Type}
    (parseYaml : string -> result Yaml) (this : Path.t) (fs : FS)
    (txt first opening : string) (skipped body : list string) :
  Path.read this fs = (fs, Ok txt) ->
  Js.split_on Js.newline txt = (first :: skipped ++ opening :: body)%list ->
  Forall (fun line => Path.ends_with_dashes line = false) skipped ->
  Path.ends_with_dashes opening = true ->
  body <> [] ->
  Forall (fun line => Path.starts_with_dashes line = false) body ->
  Path.readYAMLFrontMatter parseYaml this fs =
    (fs, parseYaml
           (unlines body +:+ "undefined" +:+ String Js.newline "")).
Proof.
  intros Hread Hsplit Hskipped Hopen Hne Hbody.
  rewrite (readYAMLFrontMatter_spec _ _ _ _ Hread), Hsplit.
  rewrite skip_to_dashes_found by assumption.
  rewrite collect_open_ended by assumption.
  destruct body; [congruence|reflexivity].
Qed.

(** [front_matter_unterminated] at front matter that is never closed. *)
Lemma front_matter_unterminated_open :
  let nl := String Js.newline "" in
  let txt := "x" +:+ nl +:+ "---" +:+ nl +:+ "a: 1" in
  let fs : FS := {[ "/" := Directory; "/f" := File txt ]} in
  Path.readYAMLFrontMatter (fun yaml => Ok yaml) (Path.mk "/f") fs =
    (fs, Ok ("a: 1" +:+ nl +:+ "undefined" +:+ nl)).
Proof.
  intros nl txt fs.
  apply (front_matter_unterminated (fun yaml => Ok yaml) (Path.mk "/f") fs
           txt "x" "---" [] ["a: 1"]);
    try reflexivity; try discriminate; now repeat constructor.
Defined.

(** ** [symlink] *)

(** X19: [symlink] runs nothing unless the strings of [from] and of
    [to] both start with the string of the directory: otherwise it
    throws the error of [relative] and the file system stays as it
    is. *)
Theorem symlink_needs_paths_below (run : list string -> string -> M nat)
    (this from to : Path.t) (force : option bool) (fs : FS) :
  String.prefix (Path.string this) (Path.string from) = false \/
  String.prefix (Path.string this) (Path.string to) = false ->
  Path.symlink run this from to force fs = (fs, Throw (Error "unimpl")).
Proof.
  intros Hout. unfold Path.symlink, Path.relative, Js.startsWith. unfold_io.
  destruct (String.prefix (Path.string this) (Path.string from));
    [|reflexivity].
  destruct Hout as [Hout|Hout]; [discriminate|].
  now rewrite Hout.
Qed.

(** [symlink_needs_paths_below] with a command that would empty the
    file system if it ran. *)
Lemma symlink_needs_paths_below_elsewhere :
  let fs : FS := {[ "/" := Directory; "/opt" := Directory ]} in
  Path.symlink (fun _ _ _ => (∅, Ok 0)) (Path.mk "/opt")
    (Path.mk "/usr/v1") (Path.mk "/opt/v") None fs =
    (fs, Throw (Error "unimpl")).
Proof.
  intros fs. apply symlink_needs_paths_below. now left.
Defined.

(** ** [mv] into a directory *)

(** X20: when [mv] with [into] returns, the Path it returns lies
    directly in [into] and has the base name of the moved path. *)
Theorem mv_into_keeps_the_name (this into q : Path.t) (force : option bool)
    (fs fs' : FS) :
  strictly_normalized (Path.string this) = true ->
  Path.string this <> "/" ->
  strictly_normalized (Path.string into) = true ->
  Path.mv this (Path.Into into) force fs = (fs', Ok q) ->
  Path.parent q = Ok into /\ Path.basename q = Path.basename this.
Proof.
  destruct this as [s], into as [d]. cbn [Path.string].
  intros (segs & Hsegs & ->)%strictly_normalized_segs Hroot
         (ds & Hds & ->)%strictly_normalized_segs Hmv.
  apply mv_returns in Hmv. unfold Path.basename in *. cbn [Path.string] in *.
  destruct segs as [|last init _] using rev_ind; [now destruct Hroot|].
  apply Forall_app in Hsegs as [Hinit Hlast].
  apply Forall_cons in Hlast as [Hlast _].
  rewrite basename_snoc in * by assumption.
  assert (Path.join (Path.mk (String "/" (Js.join ds))) [last] =
            Ok (Path.mk (String "/" (Js.join (ds ++ [last]))))) as Hjoin
    by (apply (join_kept ds [last]);
        [assumption|constructor; [assumption|constructor]|discriminate]).
  rewrite Hjoin in Hmv. injection Hmv as <-. cbn [Path.string]. split.
  - rewrite parent_of_kept
      by (apply Forall_app; split; [assumption|now constructor]).
    now rewrite removelast_last.
  - now apply basename_snoc.
Qed.

(** [mv_into_keeps_the_name] at the file [/tmp/a], moved into [/d]. *)
Lemma mv_into_keeps_the_name_file :
  Path.parent (Path.mk "/d/a") = Ok (Path.mk "/d") /\
  Path.basename (Path.mk "/d/a") = Path.basename (Path.mk "/tmp/a").
Proof.
  apply (mv_into_keeps_the_name (Path.mk "/tmp/a") (Path.mk "/d")
           (Path.mk "/d/a") None
           {[ "/" := Directory; "/tmp" := Directory; "/tmp/a" := File "x";
              "/d" := Directory ]}
           {[ "/" := Directory; "/tmp" := Directory; "/d" := Directory;
              "/d/a" := File "x" ]});
    [reflexivity|discriminate|reflexivity|].
  vm_compute. reflexivity.
Defined.

(** ** [mv] of a file onto a free path *)

Section MoveFile.

Variable fs : FS.
Variables oldpath newpath : string.
Hypothesis Hfree : fs !! newpath = None.
Hypothesis Hleaf : forall q, Deno.inside oldpath q = true -> fs !! q = None.





End MoveFile.


